(** * AI-assisted grader: a shallow embedding of [grader.py]

    The grader is a sequential pipeline: load the rubric text, and for every
    submission archive unpack it, send each eligible file to a language
    model, parse the two-field reply and append a row to a CSV report.

    Modelling conventions.
    - Python [str] values are [string]; a character is an [ascii], read as a
      code point below 256.
    - Python [float] scores are rationals ([Q]): the exact value denoted by
      the decimal numeral.  Binary64 rounding is monotone and leaves 0, 5 and
      10 unchanged, so the comparisons proved here (the clamp, the fallback
      constants, the growth of the running total) are the ones the program
      performs; the [.1f] rendering of a score is not modelled and report
      rows and console lines carry the number itself.
    - Effects (console output, the report stream, the extraction
      directories, exceptions) are threaded by a state-and-exception monad
      [M].  What the outside world answers (the reply of the model, the
      outcome of reading a file, of unpacking an archive, of deleting a
      directory) is data given to the model. *)

From Stdlib Require Import String Ascii List ZArith QArith Lia Lqa Bool.
From stdpp Require Import gmap strings.
Import ListNotations.


(** ** Python string operations *)

Module PyStr.

(** [len(s)] *)
Definition len (s : string) : nat := String.length s.

(** [sep.join(l)] *)
Definition join (sep : string) (l : list string) : string := String.concat sep l.

(** [s[:n]] for [0 <= n] *)
Definition take (n : nat) (s : string) : string := String.substring 0 n s.

(** [c * n] for a one-character string [c] *)
Fixpoint replicate (n : nat) (c : ascii) : string :=
  match n with
  | O => EmptyString
  | S n' => String c (replicate n' c)
  end.

(** [c in s] for a one-character string [c] *)
Fixpoint mem_chr (c : ascii) (s : string) : bool :=
  match s with
  | EmptyString => false
  | String a s' => Ascii.eqb a c || mem_chr c s'
  end.

(** [s.startswith(w)] and, when it holds, the rest of [s] after [w]. *)
Fixpoint strip_prefix (w s : string) : option string :=
  match w with
  | EmptyString => Some s
  | String a w' =>
      match s with
      | EmptyString => None
      | String b s' => if Ascii.eqb b a then strip_prefix w' s' else None
      end
  end.

(** [w in s]: [w] occurs in [s] as a substring. *)
Fixpoint contains (w s : string) : bool :=
  match strip_prefix w s with
  | Some _ => true
  | None =>
      match s with
      | EmptyString => false
      | String _ s' => contains w s'
      end
  end.

(** [s.rfind(c)] for a one-character string [c]; [None] stands for -1. *)
Fixpoint rfind (c : ascii) (s : string) : option nat :=
  match s with
  | EmptyString => None
  | String a s' =>
      match rfind c s' with
      | Some i => Some (S i)
      | None => if Ascii.eqb a c then Some O else None
      end
  end.

(** Prepend a character to the first word of a split. *)
Definition cons_chr (c : ascii) (l : list string) : list string :=
  match l with
  | [] => [String c EmptyString]
  | w :: ws => String c w :: ws
  end.

(** [s.split(sep)] for a one-character separator. *)
Fixpoint split (sep : ascii) (s : string) : list string :=
  match s with
  | EmptyString => [EmptyString]
  | String c s' =>
      if Ascii.eqb c sep then EmptyString :: split sep s'
      else cons_chr c (split sep s')
  end.

(** Whitespace as [str.strip()] sees it, on code points below 256:
    tab to carriage return, the four separators 28-31, space, NEL and
    the no-break space. *)
Definition is_space (c : ascii) : bool :=
  let n := nat_of_ascii c in
  ((9 <=? n) && (n <=? 13)) || ((28 <=? n) && (n <=? 32))
  || (n =? 133) || (n =? 160).

Fixpoint lstrip (s : string) : string :=
  match s with
  | EmptyString => EmptyString
  | String c s' => if is_space c then lstrip s' else s
  end.

Fixpoint rstrip (s : string) : string :=
  match s with
  | EmptyString => EmptyString
  | String c s' =>
      match rstrip s' with
      | EmptyString => if is_space c then EmptyString else String c EmptyString
      | r => String c r
      end
  end.

(** [s.strip()] *)
Definition strip (s : string) : string := rstrip (lstrip s).

End PyStr.

(** ** [pathlib] names *)

Module PyPath.

(** [PurePath.name]: the final component. *)
Definition name (p : string) : string :=
  match PyStr.rfind "/" p with
  | Some i => String.substring (S i) (String.length p - S i) p
  | None => p
  end.

(** The test [0 < i < len(name) - 1] on [i = name.rfind('.')]. *)
Definition dot_index (nm : string) : option nat :=
  match PyStr.rfind "." nm with
  | Some i => if (0 <? i) && (i <? String.length nm - 1) then Some i else None
  | None => None
  end.

(** [PurePath.suffix] *)
Definition suffix (p : string) : string :=
  let nm := name p in
  match dot_index nm with
  | Some i => String.substring i (String.length nm - i) nm
  | None => EmptyString
  end.

(** [PurePath.stem] *)
Definition stem (p : string) : string :=
  let nm := name p in
  match dot_index nm with
  | Some i => String.substring 0 i nm
  | None => nm
  end.

End PyPath.

(** ** Configuration *)

Definition SUBMISSIONS_DIR : string := "submissions".
Definition ASSIGNMENT_PDF : string := "Project-1 Phase-2_as.pdf".
Definition OUTPUT_CSV : string := "grades.csv".
Definition DEBUG_MODE : bool := true.

(** The newline character and the one-character string holding it. *)
Definition nl_chr : ascii := ascii_of_nat 10.
Definition nl : string := String nl_chr EmptyString.

(** ** Requirement loader: the page loop of [extract_requirements] *)

(** One iteration of [for page in doc]: [full_text] is the list built so
    far, [page_text] the text of the current page. *)
Definition extract_requirements_step (full_text : list string) (page_text : string)
  : list string :=
  if PyStr.len (PyStr.join nl full_text) + PyStr.len page_text <? 2500
  then full_text ++ [page_text]
  else full_text.

(** The list [full_text] after the loop has run over [pages]. *)
Definition extract_requirements_loop (pages : list string) : list string :=
  fold_left extract_requirements_step pages [].

(** The value returned when the document opens: the pages kept, joined. *)
Definition extract_requirements_text (pages : list string) : string :=
  PyStr.join nl (extract_requirements_loop pages).

(** The loader as the specification words it: a page is appended while the
    length accumulated so far is under the budget, and accumulation stops
    once the budget is reached. *)
Fixpoint accumulate_while_under_budget (full_text pages : list string)
  : list string :=
  match pages with
  | [] => full_text
  | page_text :: rest =>
      if PyStr.len (PyStr.join nl full_text) <? 2500
      then accumulate_while_under_budget (full_text ++ [page_text]) rest
      else full_text
  end.

Definition extract_requirements_as_specified (pages : list string) : string :=
  PyStr.join nl (accumulate_while_under_budget [] pages).

(** ** Submission identifier *)

(** [zip_path.stem.split("-")[0]]; [None] stands for the [IndexError] of
    indexing an empty list. *)
Definition asurite_id_of (zip_path : string) : option string :=
  hd_error (PyStr.split "-" (PyPath.stem zip_path)).

(** ** The fragment of [re] the parser uses

    A backtracking matcher in continuation-passing style, with the
    priorities of [re]: alternatives left to right, [+] and [?] greedy,
    [*?] lazy, the search trying start positions from the left. *)

Module Re.

Inductive regex : Type :=
| Lit (w : string)              (* literal text *)
| Set_ (p : ascii -> bool)      (* a character set, such as [0-9.] *)
| Dot                           (* [.]: any character but a newline *)
| Eos                           (* [$] *)
| Seq (r1 r2 : regex)
| Alt (r1 r2 : regex)
| Opt (r : regex)               (* [r?] *)
| Plus (r : regex)              (* [r+] *)
| StarLazy (r : regex)          (* [r*?] *)
| Group (n : nat) (r : regex).  (* the n-th parenthesis *)

(** The groups of a match: number and captured text, latest first. *)
Definition groups : Type := list (nat * string).

(** [m.group(n)]; [None] when the group took no part in the match. *)
Fixpoint group (n : nat) (g : groups) : option string :=
  match g with
  | [] => None
  | (i, w) :: g' => if i =? n then Some w else group n g'
  end.

Definition cont : Type := string -> groups -> option groups.

Definition orelse (a b : option groups) : option groups :=
  match a with
  | Some x => Some x
  | None => b
  end.

(** [$] without [MULTILINE]: at the end, or before a final newline. *)
Definition at_end (s : string) : bool :=
  match s with
  | EmptyString => true
  | String c EmptyString => Ascii.eqb c nl_chr
  | _ => false
  end.

(** The text consumed between the input [s] and its remainder [s1]. *)
Definition consumed (s s1 : string) : string :=
  String.substring 0 (String.length s - String.length s1) s.

(** One character accepted by [p]. *)
Definition one (p : ascii -> bool) (s : string) (g : groups) (k : cont)
  : option groups :=
  match s with
  | EmptyString => None
  | String c s' => if p c then k s' g else None
  end.

(** [r+] over a matcher [body] for [r]: one more round is tried before
    leaving the loop.  A round that consumes nothing ends the loop. *)
Fixpoint plus_loop (body : string -> groups -> cont -> option groups)
    (fuel : nat) (s : string) (g : groups) (k : cont) : option groups :=
  match fuel with
  | O => None
  | S fuel' =>
      body s g (fun s1 g1 =>
        orelse
          (if String.length s1 <? String.length s
           then plus_loop body fuel' s1 g1 k else None)
          (k s1 g1))
  end.

(** [r*?]: leaving the loop is tried before one more round. *)
Fixpoint lazy_loop (body : string -> groups -> cont -> option groups)
    (fuel : nat) (s : string) (g : groups) (k : cont) : option groups :=
  orelse (k s g)
    match fuel with
    | O => None
    | S fuel' =>
        body s g (fun s1 g1 =>
          if String.length s1 <? String.length s
          then lazy_loop body fuel' s1 g1 k else None)
    end.

Fixpoint run (r : regex) (s : string) (g : groups) (k : cont) {struct r}
  : option groups :=
  match r with
  | Lit w =>
      match PyStr.strip_prefix w s with
      | Some s' => k s' g
      | None => None
      end
  | Set_ p => one p s g k
  | Dot => one (fun c => negb (Ascii.eqb c nl_chr)) s g k
  | Eos => if at_end s then k s g else None
  | Seq r1 r2 => run r1 s g (fun s1 g1 => run r2 s1 g1 k)
  | Alt r1 r2 => orelse (run r1 s g k) (run r2 s g k)
  | Opt r1 => orelse (run r1 s g k) (k s g)
  | Plus r1 => plus_loop (run r1) (S (String.length s)) s g k
  | StarLazy r1 => lazy_loop (run r1) (S (String.length s)) s g k
  | Group n r1 =>
      run r1 s g (fun s1 g1 => k s1 ((n, consumed s s1) :: g1))
  end.

(** A match anchored at the start of [s]. *)
Definition match_here (r : regex) (s : string) : option groups :=
  run r s [] (fun _ g => Some g).

(** [re.search(r, s)]: the leftmost start position with a match. *)
Fixpoint search (r : regex) (s : string) : option groups :=
  match match_here r s with
  | Some g => Some g
  | None =>
      match s with
      | EmptyString => None
      | String _ s' => search r s'
      end
  end.

End Re.

(** ** Exceptions *)

(** An instance of a subclass of [Exception]: its class and [str(e)]. *)
Record exception : Type := { exc_class : string; exc_msg : string }.

(** What a [raise] carries up the stack.  [exit(n)] raises [SystemExit],
    which is not an [Exception] and passes through [except Exception]. *)
Inductive raised : Type :=
| Exception (e : exception)
| SystemExit (code : Z).

Definition ValueError (msg : string) : exception :=
  {| exc_class := "ValueError"; exc_msg := msg |}.
Definition AttributeError (msg : string) : exception :=
  {| exc_class := "AttributeError"; exc_msg := msg |}.
Definition IndexError (msg : string) : exception :=
  {| exc_class := "IndexError"; exc_msg := msg |}.

(** ** [float] on the text the score pattern captures *)

Definition is_digit (c : ascii) : bool :=
  let n := nat_of_ascii c in (48 <=? n) && (n <=? 57).

Definition digit_value (c : ascii) : Z := Z.of_nat (nat_of_ascii c - 48).

(** The set [[0-9.]] of the score pattern. *)
Definition score_chr (c : ascii) : bool := is_digit c || Ascii.eqb c ".".

(** Reads [digits [. digits]] with at least one digit: the digits read
    as one integer [mant] and ten to the number of fraction digits
    [scale]. *)
Fixpoint scan_decimal (s : string) (seen_dot : bool) (ndigits : nat)
    (mant : Z) (scale : positive) : option (Z * positive) :=
  match s with
  | EmptyString => if ndigits =? 0 then None else Some (mant, scale)
  | String c s' =>
      if is_digit c then
        scan_decimal s' seen_dot (S ndigits) (10 * mant + digit_value c)
          (if seen_dot then (10 * scale)%positive else scale)
      else if Ascii.eqb c "." && negb seen_dot then
        scan_decimal s' true ndigits mant scale
      else None
  end.

(** [float(s)] for a text [s] of digits and dots, the only texts the
    score pattern captures: the value of the numeral, or [ValueError]
    when [s] has no digit or more than one dot. *)
Definition py_float (s : string) : exception + Q :=
  match scan_decimal s false 0 0 1 with
  | Some (m, d) => inr (Qred (m # d))
  | None => inl (ValueError ("could not convert string to float: '" +:+ s +:+ "'"))
  end.

(** [min(a, b)] and [max(a, b)] of two floats: the first argument is kept
    unless the second is strictly smaller (larger). *)
Definition py_min (a b : Q) : Q :=
  if Qle_bool a b then a else b.
Definition py_max (a b : Q) : Q :=
  if Qle_bool b a then a else b.

(** ** The two patterns of [parse_llm_response] *)

(** [Score\|([0-9.]+)\|?] *)
Definition score_re : Re.regex :=
  Re.Seq (Re.Lit "Score|")
    (Re.Seq (Re.Group 1 (Re.Plus (Re.Set_ score_chr)))
            (Re.Opt (Re.Lit "|"))).

(** [Feedback\|(.*?)(\||$)] *)
Definition feedback_re : Re.regex :=
  Re.Seq (Re.Lit "Feedback|")
    (Re.Seq (Re.Group 1 (Re.StarLazy Re.Dot))
            (Re.Group 2 (Re.Alt (Re.Lit "|") Re.Eos))).

(** ** Observable state *)

(** The console: one constructor per [print] call of the source, with the
    values it interpolates. *)
Inductive line : Type :=
| RequirementNotFound (pdf_path : string)
| ParseError (msg : string)
| RawResponseHeader (file_path : string)
| RawResponseBody (response : string)
| RawResponseEnd
| ErrorAnalyzing (file_path msg : string)
| ProcessingSubmission (asurite_id : string)
| Analyzing (rel_path : string)
| ScoreLine (score : Q)
| FeedbackLine (feedback : string)
| ErrorProcessing (file msg : string).

(** A row handed to [writer.writerow]. *)
Inductive csv_row : Type :=
| HeaderRow
| GradeRow (asurite_id file : string) (score : Q) (feedback : string) (total : Q).

Record state : Type := mkState {
  stdout : list line;         (* lines printed so far *)
  report : list csv_row;      (* rows written to [csvfile] so far *)
  flushed : nat;              (* how many of them [flush] has pushed out *)
  dirs : gset string;         (* extraction directories present on disk *)
  total_score : Q             (* the local [total_score] of [process_submissions] *)
}.

(** ** The state-and-exception monad *)

Inductive outcome (A : Type) : Type :=
| Returned (a : A)
| Raised (r : raised).
Arguments Returned {A} a.
Arguments Raised {A} r.

Definition M (A : Type) : Type := state -> outcome A * state.

Definition ret {A : Type} (a : A) : M A := fun st => (Returned a, st).

Definition bind {A B : Type} (m : M A) (k : A -> M B) : M B :=
  fun st =>
    match m st with
    | (Returned a, st') => k a st'
    | (Raised r, st') => (Raised r, st')
    end.

Declare Scope grader_scope.
Delimit Scope grader_scope with grader.
Notation "x <- y ;; z" := (bind y (fun x => z))
  (at level 20, y at level 99, z at level 200, only parsing) : grader_scope.
Notation "' x <- y ;; z" := (bind y (fun x => z))
  (at level 20, x pattern, y at level 99, z at level 200, only parsing)
  : grader_scope.
Notation "x ;; z" := (bind x (fun _ => z))
  (at level 100, z at level 200, only parsing, right associativity)
  : grader_scope.
Open Scope grader_scope.

Definition raise {A : Type} (r : raised) : M A := fun st => (Raised r, st).

(** A library call whose result the world decides. *)
Definition call {A : Type} (r : exception + A) : M A :=
  match r with
  | inl e => raise (Exception e)
  | inr a => ret a
  end.

(** [try: m  except Exception as e: h e] *)
Definition try_except {A : Type} (m : M A) (h : exception -> M A) : M A :=
  fun st =>
    match m st with
    | (Raised (Exception e), st') => h e st'
    | other => other
    end.

(** [try: m  except cls as e: h e], for one class [cls]. *)
Definition try_except_class {A : Type} (cls : string) (m : M A)
    (h : exception -> M A) : M A :=
  fun st =>
    match m st with
    | (Raised (Exception e), st') =>
        if String.eqb (exc_class e) cls then h e st'
        else (Raised (Exception e), st')
    | other => other
    end.

(** [for x in l: body x] *)
Fixpoint for_each {A : Type} (l : list A) (body : A -> M unit) : M unit :=
  match l with
  | [] => ret tt
  | x :: l' => body x ;; for_each l' body
  end.

Definition when (b : bool) (m : M unit) : M unit := if b then m else ret tt.

Definition print (l : line) : M unit :=
  fun st => (Returned tt,
    mkState (stdout st ++ [l]) (report st) (flushed st) (dirs st) (total_score st)).

Definition writerow (r : csv_row) : M unit :=
  fun st => (Returned tt,
    mkState (stdout st) (report st ++ [r]) (flushed st) (dirs st) (total_score st)).

Definition flush : M unit :=
  fun st => (Returned tt,
    mkState (stdout st) (report st) (length (report st)) (dirs st) (total_score st)).

Definition set_dirs (d : gset string) : M unit :=
  fun st => (Returned tt,
    mkState (stdout st) (report st) (flushed st) d (total_score st)).

Definition get_dirs : M (gset string) := fun st => (Returned (dirs st), st).

Definition set_total (t : Q) : M unit :=
  fun st => (Returned tt,
    mkState (stdout st) (report st) (flushed st) (dirs st) t).

Definition get_total : M Q := fun st => (Returned (total_score st), st).

(** ** [extract_requirements] *)

(** [doc] is what [fitz.open(pdf_path)] gives: the page texts in order,
    or the exception it raises. *)
Definition extract_requirements (doc : exception + list string)
    (pdf_path : string) : M string :=
  try_except_class "FileNotFoundError"
    (pages <- call doc ;;
     ret (extract_requirements_text pages))
    (fun _ =>
     print (RequirementNotFound pdf_path) ;;
     raise (SystemExit 1)).

(** ** [parse_llm_response] *)

(** [float(m.group(1))] and [m.group(1).strip()]; a group that took no
    part in the match is [None] in Python and both calls raise on it. *)
Definition float_of_group (w : option string) : M Q :=
  match w with
  | Some s => call (py_float s)
  | None =>
      raise (Exception {| exc_class := "TypeError";
        exc_msg := "float() argument must be a string or a real number, not 'NoneType'" |})
  end.

Definition strip_of_group (w : option string) : M string :=
  match w with
  | Some s => ret (PyStr.strip s)
  | None =>
      raise (Exception (AttributeError "'NoneType' object has no attribute 'strip'"))
  end.

(** The body of the [try]. *)
Definition parse_llm_response_body (text : string) : M (Q * string) :=
  let score_match := Re.search score_re text in
  let feedback_match := Re.search feedback_re text in
  score <- match score_match with
           | Some m => float_of_group (Re.group 1 m)
           | None => ret 5%Q
           end ;;
  feedback <- match feedback_match with
              | Some m => strip_of_group (Re.group 1 m)
              | None => ret "No feedback parsed"
              end ;;
  let score := py_max 0 (py_min 10 score) in
  ret (score, feedback).

Definition parse_llm_response (text : string) : M (Q * string) :=
  try_except (parse_llm_response_body text)
    (fun e =>
     when DEBUG_MODE (print (ParseError (exc_msg e))) ;;
     ret (5%Q, "Could not parse analysis results")).

(** ** [analyze_submission] *)

(** The prompt: the f-string of the source, line by line. *)
Definition prompt_of (file_path content requirements : string) : string :=
  PyStr.join nl
    [ "EVALUATION TASK:";
      "1. Review this code/config file against these requirements:";
      requirements;
      EmptyString;
      "2. File: " +:+ file_path;
      "3. Content (truncated if long):";
      PyStr.take 2500 content;
      EmptyString;
      "FORMAT REQUIREMENTS:";
      "- Respond ONLY with these 2 lines:";
      "Score|<0-10 with decimal>|";
      "Feedback|<concise issues>|";
      "- No other text or explanations" ].

(** [generate prompt] is what
    [ollama.generate(model=..., prompt=prompt, ...)['response']] gives:
    the reply text, or the exception raised on the way. *)
Definition analyze_submission (generate : string -> exception + string)
    (file_path content requirements : string) : M (Q * string) :=
  let prompt := prompt_of file_path content requirements in
  try_except
    (response <- call (generate prompt) ;;
     when DEBUG_MODE
       (print (RawResponseHeader file_path) ;;
        print (RawResponseBody response) ;;
        print RawResponseEnd) ;;
     parse_llm_response response)
    (fun e =>
     print (ErrorAnalyzing file_path (exc_msg e)) ;;
     ret (0%Q, "Analysis failed")).

(** ** [process_submissions] *)

(** An entry that [extract_dir.rglob('*')] yields. *)
Record dir_entry : Type := {
  e_rel : string;                 (* its path relative to [extract_dir] *)
  e_is_file : bool;               (* [file.is_file()] *)
  e_read : exception + string     (* what [file.read_text(...)] gives *)
}.

(** What [zf.extractall(extract_dir)] does: it unpacks the archive, and
    the directory then lists [entries]; or it raises, having created the
    directory or not. *)
Inductive extraction : Type :=
| Extracted (entries : list dir_entry)
| ExtractFailed (e : exception) (created : bool).

(** An archive that [Path(SUBMISSIONS_DIR).glob("*.zip")] yields. *)
Record archive : Type := {
  a_path : string;                (* [zip_path] *)
  a_open : option exception;      (* raised by [zipfile.ZipFile(zip_path)], if any *)
  a_extract : extraction;
  a_rmtree_ok : bool              (* whether deleting the directory succeeds *)
}.

(** The surroundings of one run. *)
Record world : Type := {
  w_pdf_path : string;                     (* [Path(ASSIGNMENT_PDF).resolve()] *)
  w_doc : exception + list string;         (* [fitz.open] on it *)
  w_archives : list archive;               (* the glob, in the order it yields *)
  w_generate : string -> exception + string
}.

(** [Path(f"temp/{asurite_id}")] *)
Definition extract_dir_of (asurite_id : string) : string :=
  "temp/" +:+ asurite_id.

(** [file.suffix in ('.py', '.yaml', '.yml')] *)
Definition suffix_allowed (sfx : string) : bool :=
  String.eqb sfx ".py" || String.eqb sfx ".yaml" || String.eqb sfx ".yml".

(** [zf.extractall(extract_dir)], then the listing of the directory. *)
Definition extractall (a : archive) (extract_dir : string) : M (list dir_entry) :=
  d <- get_dirs ;;
  match a_extract a with
  | Extracted entries =>
      set_dirs (match entries with [] => d | _ => d ∪ {[ extract_dir ]} end) ;;
      ret entries
  | ExtractFailed e created =>
      set_dirs (if created then d ∪ {[ extract_dir ]} else d) ;;
      raise (Exception e)
  end.

(** [shutil.rmtree(extract_dir, ignore_errors=True)] *)
Definition rmtree_ignore_errors (a : archive) (extract_dir : string) : M unit :=
  d <- get_dirs ;;
  if a_rmtree_ok a then set_dirs (d ∖ {[ extract_dir ]}) else ret tt.

(** The body of [for file in extract_dir.rglob('*')]. *)
Definition process_file (generate : string -> exception + string)
    (asurite_id extract_dir requirements : string) (file : dir_entry) : M unit :=
  if e_is_file file && suffix_allowed (PyPath.suffix (e_rel file)) then
    try_except
      (content <- call (e_read file) ;;
       let rel_path := e_rel file in
       print (Analyzing rel_path) ;;
       '(score, feedback) <- analyze_submission generate rel_path content requirements ;;
       t <- get_total ;;
       set_total (t + score)%Q ;;
       print (ScoreLine score) ;;
       print (FeedbackLine feedback) ;;
       total <- get_total ;;
       writerow (GradeRow asurite_id rel_path score feedback total) ;;
       flush)
      (fun e =>
       print (ErrorProcessing (extract_dir +:+ "/" +:+ e_rel file) (exc_msg e)))
  else ret tt.

(** The body of [for zip_path in Path(SUBMISSIONS_DIR).glob("*.zip")]. *)
Definition process_archive (generate : string -> exception + string)
    (requirements : string) (a : archive) : M unit :=
  asurite_id <- match asurite_id_of (a_path a) with
                | Some i => ret i
                | None => raise (Exception (IndexError "list index out of range"))
                end ;;
  set_total 0 ;;
  print (ProcessingSubmission asurite_id) ;;
  match a_open a with
  | Some e => raise (Exception e)
  | None => ret tt
  end ;;
  let extract_dir := extract_dir_of asurite_id in
  entries <- extractall a extract_dir ;;
  for_each entries (process_file generate asurite_id extract_dir requirements) ;;
  rmtree_ignore_errors a extract_dir.

(** [with open(OUTPUT_CSV, 'w', newline='') as csvfile: body]: the report
    is truncated on entry, and closing it on the way out, also when [body]
    raises, pushes out what was written. *)
Definition with_open_csv (body : M unit) : M unit :=
  fun st =>
    let st0 := mkState (stdout st) [] 0 (dirs st) (total_score st) in
    match body st0 with
    | (o, st1) =>
        (o, mkState (stdout st1) (report st1) (length (report st1))
              (dirs st1) (total_score st1))
    end.

Definition process_submissions (w : world) : M unit :=
  requirements <- extract_requirements (w_doc w) (w_pdf_path w) ;;
  with_open_csv
    (writerow HeaderRow ;;
     for_each (w_archives w) (process_archive (w_generate w) requirements)).

(** The state a run starts from: nothing printed, an empty report. *)
Definition initial_state (d : gset string) : state :=
  mkState [] [] 0 d 0.

(** ** Accessors used in statements *)

Definition row_score (r : csv_row) : Q :=
  match r with
  | HeaderRow => 0
  | GradeRow _ _ score _ _ => score
  end.

Definition row_total (r : csv_row) : Q :=
  match r with
  | HeaderRow => 0
  | GradeRow _ _ _ _ total => total
  end.

(** ** Functions used to state what the patterns do *)

(** The longest prefix of [s] whose characters satisfy [p], and the rest. *)
Fixpoint span (p : ascii -> bool) (s : string) : string * string :=
  match s with
  | EmptyString => (EmptyString, EmptyString)
  | String c s' =>
      if p c then (String c (fst (span p s')), snd (span p s'))
      else (EmptyString, s)
  end.

(** What [(.*?)(\||$)] captures in the text that follows "Feedback|":
    group 1 and group 2, or nothing when a newline that is not the last
    character comes before any "|". *)
Fixpoint feedback_scan (s : string) : option (string * string) :=
  match s with
  | EmptyString => Some (EmptyString, EmptyString)
  | String c s' =>
      if Ascii.eqb c "|" then Some (EmptyString, "|")
      else if Re.at_end s then Some (EmptyString, EmptyString)
      else if Ascii.eqb c nl_chr then None
      else
        match feedback_scan s' with
        | Some (w, d) => Some (String c w, d)
        | None => None
        end
  end.

(** Every place where [w] occurs in [s] is followed by a text that
    satisfies [p]. *)
Fixpoint every_occurrence (w : string) (p : string -> bool) (s : string) : bool :=
  match PyStr.strip_prefix w s with
  | Some rest => p rest
  | None => true
  end
  && match s with
     | EmptyString => true
     | String _ s' => every_occurrence w p s'
     end.

(** The text starts with a minus sign. *)
Definition starts_with_minus (s : string) : bool :=
  match s with
  | EmptyString => false
  | String c _ => Ascii.eqb c "-"
  end.

(** The reply that follows the two-line template of the prompt. *)
Definition template_reply (score_text feedback_text : string) : string :=
  "Score|" +:+ score_text +:+ "|" +:+ nl +:+ "Feedback|" +:+ feedback_text +:+ "|".

(** Group 1 of the leftmost match of each pattern. *)
Definition score_field (text : string) : option string :=
  match Re.search score_re text with
  | Some m => Re.group 1 m
  | None => None
  end.

Definition feedback_field (text : string) : option string :=
  match Re.search feedback_re text with
  | Some m => Re.group 1 m
  | None => None
  end.

(** The feedback returned when parsing does not raise. *)
Definition feedback_of (text : string) : string :=
  match feedback_field text with
  | Some w => PyStr.strip w
  | None => "No feedback parsed"
  end.

(** [max(0.0, min(10.0, score))] *)
Definition clamp (score : Q) : Q := py_max 0 (py_min 10 score).

(** The state after one more printed line. *)
Definition printed (l : line) (st : state) : state :=
  mkState (stdout st ++ [l]) (report st) (flushed st) (dirs st) (total_score st).

(** The state after the three lines that show a raw reply. *)
Definition raw_response_printed (file_path response : string) (st : state) : state :=
  printed RawResponseEnd
    (printed (RawResponseBody response)
       (printed (RawResponseHeader file_path) st)).

(** The state after a file was graded: two lines printed, the running
    total increased, one row written and pushed out. *)
Definition graded (asurite_id rel_path : string) (score : Q) (feedback : string)
    (st : state) : state :=
  let row :=
    GradeRow asurite_id rel_path score feedback (total_score st + score)%Q in
  mkState ((stdout st ++ [ScoreLine score]) ++ [FeedbackLine feedback])
    (report st ++ [row]) (length (report st ++ [row])) (dirs st)
    (total_score st + score)%Q.

(** The report just opened and its header written; the report closed. *)
Definition header_written (st : state) : state :=
  mkState (stdout st) [HeaderRow] 0 (dirs st) (total_score st).

Definition closed (st : state) : state :=
  mkState (stdout st) (report st) (length (report st)) (dirs st) (total_score st).

(** The state in which [extractall] raises for a submission: its line
    printed, the total reset, the directory present if the failed
    extraction had created it. *)
Definition extraction_failed (asurite_id : string) (created : bool) (st : state)
  : state :=
  mkState (stdout st ++ [ProcessingSubmission asurite_id]) (report st)
    (flushed st)
    (if created then dirs st ∪ {[ extract_dir_of asurite_id ]} else dirs st)
    0.

(** The totals of [rows] run from [t]: each row adds its score, which is
    not negative, to the total before it, so the total does not
    decrease. *)
Fixpoint totals_run_from (t : Q) (rows : list csv_row) : Prop :=
  match rows with
  | [] => True
  | r :: rows' =>
      row_total r = (t + row_score r)%Q
      /\ (0 <= row_score r)%Q
      /\ (t <= row_total r)%Q
      /\ totals_run_from (row_total r) rows'
  end.

(** The state right after [extractall] has unpacked a submission: its
    line printed, the total reset, the directory present if the archive
    had any member. *)
Definition submission_started (asurite_id : string) (entries : list dir_entry)
    (st : state) : state :=
  mkState (stdout st ++ [ProcessingSubmission asurite_id]) (report st)
    (flushed st)
    (match entries with
     | [] => dirs st
     | _ => dirs st ∪ {[ extract_dir_of asurite_id ]}
     end)
    0.

(** The state after [rmtree]: the directory gone if the deletion went
    through, everything as before if it did not. *)
Definition directory_removed (a : archive) (asurite_id : string) (st : state)
  : state :=
  if a_rmtree_ok a
  then mkState (stdout st) (report st) (flushed st)
         (dirs st ∖ {[ extract_dir_of asurite_id ]}) (total_score st)
  else st.

(** ** Concrete archives, replies and worlds *)

Definition BadZipFile (msg : string) : exception :=
  {| exc_class := "BadZipFile"; exc_msg := msg |}.

(** A model that answers every prompt along the template. *)
Definition reply_fine (prompt : string) : exception + string :=
  inr (template_reply "7.5" "fine").

(** A model that cannot be reached. *)
Definition reply_refused (prompt : string) : exception + string :=
  inl {| exc_class := "ConnectionError"; exc_msg := "connection refused" |}.

Definition main_py : dir_entry :=
  {| e_rel := "main.py"; e_is_file := true; e_read := inr "print(1)" |}.

Definition config_yaml : dir_entry :=
  {| e_rel := "config.yaml"; e_is_file := true; e_read := inr "debug: true" |}.

(** An archive with a damaged member: unpacking it raises after the
    directory was created. *)
Definition archive_damaged : archive :=
  {| a_path := "submissions/damaged-v1.zip";
     a_open := None;
     a_extract := ExtractFailed (BadZipFile "Bad CRC-32 for file 'main.py'") true;
     a_rmtree_ok := true |}.

(** An archive that unpacks and whose directory can be deleted. *)
Definition archive_fine : archive :=
  {| a_path := "submissions/abc123-final.zip";
     a_open := None;
     a_extract := Extracted [main_py; config_yaml];
     a_rmtree_ok := true |}.

(** An archive that unpacks and whose directory cannot be deleted. *)
Definition archive_undeletable : archive :=
  {| a_path := "submissions/xyz789-final.zip";
     a_open := None;
     a_extract := Extracted [main_py];
     a_rmtree_ok := false |}.

Definition world_of (archives : list archive)
    (generate : string -> exception + string) : world :=
  {| w_pdf_path := "/grader/Project-1 Phase-2_as.pdf";
     w_doc := inr ["Implement the handler."];
     w_archives := archives;
     w_generate := generate |}.

(** Three pages of 2000, 1000 and 100 characters. *)
Definition pages_2000_1000_100 : list string :=
  [PyStr.replicate 2000 "a"; PyStr.replicate 1000 "b"; PyStr.replicate 100 "c"].

(** ** The program entry: the block under [if __name__ == "__main__"] *)

(** The lines the entry block prints itself.  They are kept in a list of
    their own, beside the console of the functions it calls: the first is
    printed before anything else and the others after everything else. *)
Inductive main_line : Type :=
| CheckingConnection
| ModelNotFound
| InstallHint
| GradingComplete (output_csv : string)
| OllamaHelp.

(** [except ConnectionError]: the class and its built-in subclasses. *)
Definition is_connection_error (e : exception) : bool :=
  existsb (String.eqb (exc_class e))
    ["ConnectionError"; "ConnectionRefusedError"; "ConnectionResetError";
     "ConnectionAbortedError"; "BrokenPipeError"].

(** [any(m['model'] == 'codellama:7b' for m in models)] *)
Definition model_installed (names : list string) : bool :=
  existsb (fun m => String.eqb m "codellama:7b") names.

(** The body of the [try].  [models] is what evaluating
    [ollama.list()['models']] and the [m['model']] of its elements gives:
    the names, or the exception raised on the way. *)
Definition main_body (models : exception + list string) (w : world)
    (out : list main_line) (st : state)
  : outcome unit * (list main_line * state) :=
  let out := out ++ [CheckingConnection] in
  match models with
  | inl e => (Raised (Exception e), (out, st))
  | inr names =>
      if negb (model_installed names)
      then (Raised (SystemExit 1), (out ++ [ModelNotFound; InstallHint], st))
      else
        match process_submissions w st with
        | (Returned _, st') =>
            (Returned tt, (out ++ [GradingComplete OUTPUT_CSV], st'))
        | (Raised r, st') => (Raised r, (out, st'))
        end
  end.

Definition main (models : exception + list string) (w : world)
    (out : list main_line) (st : state)
  : outcome unit * (list main_line * state) :=
  match main_body models w out st with
  | (Raised (Exception e), (out', st')) =>
      if is_connection_error e
      then (Raised (SystemExit 1), (out' ++ [OllamaHelp], st'))
      else (Raised (Exception e), (out', st'))
  | other => other
  end.

(** ** Further functions used in statements *)

(** The columns of a row; the header row holds the column titles. *)
Definition row_id (r : csv_row) : string :=
  match r with
  | HeaderRow => "ASURITE"
  | GradeRow asurite_id _ _ _ _ => asurite_id
  end.

Definition row_file (r : csv_row) : string :=
  match r with
  | HeaderRow => "File"
  | GradeRow _ file _ _ _ => file
  end.

Definition is_grade_row (r : csv_row) : bool :=
  match r with
  | HeaderRow => false
  | GradeRow _ _ _ _ _ => true
  end.

(** An entry the file loop sends to the model: a regular file with one of
    the three suffixes whose text can be read. *)
Definition gradable (file : dir_entry) : bool :=
  e_is_file file
  && suffix_allowed (PyPath.suffix (e_rel file))
  && match e_read file with
     | inr _ => true
     | inl _ => false
     end.

(** An archive that opens and unpacks. *)
Definition unpacks (a : archive) : bool :=
  match a_open a, a_extract a with
  | None, Extracted _ => true
  | _, _ => false
  end.

(** How often [c] occurs in [s], and how many digits [s] has. *)
Fixpoint count_chr (c : ascii) (s : string) : nat :=
  match s with
  | EmptyString => 0
  | String a s' => (if Ascii.eqb a c then 1 else 0) + count_chr c s'
  end.

Fixpoint count_digits (s : string) : nat :=
  match s with
  | EmptyString => 0
  | String a s' => (if is_digit a then 1 else 0) + count_digits s'
  end.

(** A file of the right suffix that cannot be read. *)
Definition unreadable_py : dir_entry :=
  {| e_rel := "broken.py"; e_is_file := true;
     e_read := inl {| exc_class := "PermissionError";
                      exc_msg := "[Errno 13] Permission denied" |} |}.

(** A directory and a file of another suffix. *)
Definition src_dir : dir_entry :=
  {| e_rel := "src"; e_is_file := false; e_read := inr EmptyString |}.

Definition readme_md : dir_entry :=
  {| e_rel := "README.md"; e_is_file := true; e_read := inr "# notes" |}.

(** * Properties *)

(** ** Strings *)

Lemma len_app (s1 s2 : string) :
  String.length (s1 +:+ s2) = String.length s1 + String.length s2.
Proof.
  induction s1 as [|c s1 IH]; simpl.
  - reflexivity.
  - now rewrite IH.
Qed.

Lemma app_cons (c : ascii) (s1 s2 : string) :
  String c s1 +:+ s2 = String c (s1 +:+ s2).
Proof. reflexivity. Qed.

Lemma app_empty (s : string) : EmptyString +:+ s = s.
Proof. reflexivity. Qed.

Lemma app_assoc_str (s1 s2 s3 : string) :
  (s1 +:+ s2) +:+ s3 = s1 +:+ (s2 +:+ s3).
Proof.
  induction s1 as [|c s1 IH]; [reflexivity|].
  rewrite !app_cons. now rewrite IH.
Qed.

Lemma substring_0_app (s1 s2 : string) :
  String.substring 0 (String.length s1) (s1 +:+ s2) = s1.
Proof.
  induction s1 as [|c s1 IH]; simpl.
  - now destruct s2.
  - now rewrite IH.
Qed.

Lemma ascii_eqb_true (a b : ascii) : Ascii.eqb a b = true -> a = b.
Proof. apply Ascii.eqb_eq. Qed.

(** The length of a join grows by at most the separator and the new
    element when an element is appended. *)
Lemma len_join_snoc (sep : string) (l : list string) (p : string) :
  PyStr.len (PyStr.join sep (l ++ [p]))
  <= PyStr.len (PyStr.join sep l) + String.length sep + PyStr.len p.
Proof.
  unfold PyStr.len, PyStr.join.
  induction l as [|x l IH]; simpl.
  - lia.
  - destruct l as [|y l]; simpl in *.
    + rewrite !len_app. lia.
    + rewrite !len_app in *. lia.
Qed.

(** ** The submission identifier *)

Lemma split_head (sep : ascii) (s : string) :
  exists w ws,
    PyStr.split sep s = w :: ws
    /\ PyStr.mem_chr sep w = false
    /\ ((PyStr.mem_chr sep s = false /\ w = s)
        \/ exists rest, s = w +:+ String sep rest).
Proof.
  induction s as [|c s IH]; simpl.
  - exists EmptyString, []. auto.
  - destruct (Ascii.eqb c sep) eqn:E.
    + apply ascii_eqb_true in E. subst c.
      exists EmptyString, (PyStr.split sep s).
      repeat split; auto. right. now exists s.
    + destruct IH as (w & ws & Hs & Hw & Hc).
      rewrite Hs. simpl.
      exists (String c w), ws. simpl. rewrite E, Hw.
      repeat split; auto.
      destruct Hc as [[Hm ->] | [rest ->]].
      * left. now rewrite Hw.
      * right. now exists rest.
Qed.

(** C8. For every archive path the identifier is defined, and it is the
    text of the stem before the first "-": either the stem has no "-" and
    the identifier is the whole stem, or the stem is the identifier, a
    "-", and a rest, with no "-" in the identifier.  [abc123-final.zip]
    resolves to [abc123] and [nodash.zip] to [nodash]. *)
Theorem asurite_id_before_first_dash :
  (forall zip_path : string,
     exists asurite_id,
       asurite_id_of zip_path = Some asurite_id
       /\ PyStr.mem_chr "-" asurite_id = false
       /\ ((PyStr.mem_chr "-" (PyPath.stem zip_path) = false
            /\ asurite_id = PyPath.stem zip_path)
           \/ exists rest,
                PyPath.stem zip_path = asurite_id +:+ "-" +:+ rest))
  /\ asurite_id_of "submissions/abc123-final.zip" = Some "abc123"
  /\ asurite_id_of "submissions/nodash.zip" = Some "nodash".
Proof.
  split; [|split; reflexivity].
  intros zip_path. unfold asurite_id_of.
  destruct (split_head "-" (PyPath.stem zip_path)) as (w & ws & Hs & Hw & Hc).
  rewrite Hs. simpl. exists w. auto.
Qed.

(** ** The requirement loader *)

Lemma loop_snoc (pre : list string) (page_text : string) :
  extract_requirements_loop (pre ++ [page_text])
  = extract_requirements_step (extract_requirements_loop pre) page_text.
Proof.
  unfold extract_requirements_loop. now rewrite fold_left_app.
Qed.

Lemma step_budget (full_text : list string) (page_text : string) :
  PyStr.len (PyStr.join nl full_text) <= 2500 ->
  PyStr.len (PyStr.join nl (extract_requirements_step full_text page_text)) <= 2500.
Proof.
  intros H. unfold extract_requirements_step.
  destruct (Nat.ltb_spec
    (PyStr.len (PyStr.join nl full_text) + PyStr.len page_text) 2500) as [Hlt|Hge].
  - pose proof (len_join_snoc nl full_text page_text) as Hs.
    simpl in Hs. lia.
  - exact H.
Qed.

Lemma fold_budget (pages full_text : list string) :
  PyStr.len (PyStr.join nl full_text) <= 2500 ->
  PyStr.len (PyStr.join nl (fold_left extract_requirements_step pages full_text))
  <= 2500.
Proof.
  revert full_text.
  induction pages as [|p pages IH]; intros full_text H; simpl.
  - exact H.
  - apply IH. now apply step_budget.
Qed.

Lemma fold_kept (pages full_text : list string) :
  exists kept,
    fold_left extract_requirements_step pages full_text = full_text ++ kept
    /\ sublist kept pages.
Proof.
  revert full_text.
  induction pages as [|p pages IH]; intros full_text; simpl.
  - exists []. split; [now rewrite app_nil_r | constructor].
  - unfold extract_requirements_step at 2.
    destruct (_ <? _).
    + destruct (IH (full_text ++ [p])) as (kept & -> & Hk).
      exists (p :: kept). split.
      * now rewrite <- app_assoc.
      * now constructor.
    + destruct (IH full_text) as (kept & -> & Hk).
      exists kept. split; [reflexivity | now constructor].
Qed.

(** C1, as the code has it.  Pages are visited in order; a page is
    appended exactly when the length of the text joined so far plus the
    length of the page is under 2500, and is skipped whole otherwise,
    later pages being tried all the same.  The pages kept are therefore a
    subsequence of the document, the value returned is their join with
    newlines, and it is never longer than 2500 characters. *)
Theorem extract_requirements_budget :
  (forall (pre : list string) (page_text : string),
     extract_requirements_loop (pre ++ [page_text])
     = if PyStr.len (PyStr.join nl (extract_requirements_loop pre))
          + PyStr.len page_text <? 2500
       then extract_requirements_loop pre ++ [page_text]
       else extract_requirements_loop pre)
  /\ (forall (pages : list string) (pdf_path : string) (st : state),
        sublist (extract_requirements_loop pages) pages
        /\ extract_requirements (inr pages) pdf_path st
           = (Returned (PyStr.join nl (extract_requirements_loop pages)), st)
        /\ PyStr.len (PyStr.join nl (extract_requirements_loop pages)) <= 2500).
Proof.
  split.
  - intros pre page_text. now rewrite loop_snoc.
  - intros pages pdf_path st. repeat split.
    + destruct (fold_kept pages []) as (kept & Hk & Hs).
      unfold extract_requirements_loop. now rewrite Hk.
    + apply fold_budget. simpl. lia.
Qed.

(** C1 as worded fails on three pages of 2000, 1000 and 100 characters:
    the second page would cross the budget and is left out, and the
    third is appended after it, giving 2101 characters where the wording
    gives 3001. *)
Lemma extract_requirements_skips_crossing_page :
  extract_requirements_loop pages_2000_1000_100
    = [PyStr.replicate 2000 "a"; PyStr.replicate 100 "c"]
  /\ accumulate_while_under_budget [] pages_2000_1000_100
    = [PyStr.replicate 2000 "a"; PyStr.replicate 1000 "b"]
  /\ extract_requirements_text pages_2000_1000_100
     <> extract_requirements_as_specified pages_2000_1000_100.
Proof.
  split; [vm_compute; reflexivity|].
  split; [vm_compute; reflexivity|].
  intros H. apply (f_equal String.length) in H.
  vm_compute in H. discriminate.
Qed.

(** ** The matcher on the two patterns *)

Lemma span_app (p : ascii -> bool) (s : string) :
  s = fst (span p s) +:+ snd (span p s).
Proof.
  induction s as [|c s IH]; simpl; [reflexivity|].
  destruct (p c); simpl; [|reflexivity].
  rewrite app_cons. now rewrite <- IH.
Qed.

Lemma span_all (p : ascii -> bool) (s : string) :
  forallb p (list_ascii_of_string (fst (span p s))) = true.
Proof.
  induction s as [|c s IH]; simpl; [reflexivity|].
  destruct (p c) eqn:E; simpl; [|reflexivity].
  now rewrite E, IH.
Qed.

Lemma consumed_app (w s : string) : Re.consumed (w +:+ s) s = w.
Proof.
  unfold Re.consumed. rewrite len_app.
  replace (String.length w + String.length s - String.length s)
    with (String.length w) by lia.
  apply substring_0_app.
Qed.

Lemma consumed_span (p : ascii -> bool) (s : string) :
  Re.consumed s (snd (span p s)) = fst (span p s).
Proof.
  rewrite (span_app p s) at 1. apply consumed_app.
Qed.

(** A greedy [+] over a character set, followed by something that
    cannot fail, takes the longest run. *)
Lemma plus_set_greedy (p : ascii -> bool)
    (body : string -> Re.groups -> Re.cont -> option Re.groups) (k : Re.cont) :
  (forall s g k', body s g k' = Re.one p s g k') ->
  (forall s g, k s g <> None) ->
  forall (s : string) (fuel : nat) (g : Re.groups),
    String.length s < fuel ->
    Re.plus_loop body fuel s g k
    = match s with
      | EmptyString => None
      | String c _ => if p c then k (snd (span p s)) g else None
      end.
Proof.
  intros Hb Hk s.
  induction s as [|c s IH]; intros fuel g Hf.
  - destruct fuel; simpl; [|rewrite Hb]; reflexivity.
  - destruct fuel as [|fuel]; [simpl in Hf; lia|].
    simpl. rewrite Hb. simpl. destruct (p c) eqn:E; [|reflexivity].
    destruct (Nat.ltb_spec (String.length s) (S (String.length s)));
      [|lia].
    rewrite IH by (simpl in Hf; lia).
    destruct s as [|c' s']; simpl.
    + reflexivity.
    + destruct (p c') eqn:E'; simpl; [|reflexivity].
      destruct (k (snd (span p s')) g) eqn:Ek; [reflexivity|].
      now apply Hk in Ek.
Qed.

(** What the score pattern does at one start position. *)
Lemma score_here (s : string) :
  Re.match_here score_re s
  = match PyStr.strip_prefix "Score|" s with
    | Some (String c rest) =>
        if score_chr c
        then Some [(1, fst (span score_chr (String c rest)))]
        else None
    | _ => None
    end.
Proof.
  unfold Re.match_here, score_re.
  cbn [Re.run].
  destruct (PyStr.strip_prefix "Score|" s) as [x|]; [|reflexivity].
  rewrite (plus_set_greedy score_chr).
  - destruct x as [|c rest]; [reflexivity|].
    destruct (score_chr c); [|reflexivity].
    rewrite consumed_span.
    destruct (PyStr.strip_prefix "|" (snd (span score_chr (String c rest))));
      reflexivity.
  - reflexivity.
  - intros s1 g1. destruct (PyStr.strip_prefix "|" s1); discriminate.
  - lia.
Qed.

(** A match of the score pattern has exactly group 1, a non-empty text
    of digits and dots. *)
Lemma score_search_shape (text : string) (m : Re.groups) :
  Re.search score_re text = Some m ->
  exists w, m = [(1, w)] /\ w <> EmptyString
            /\ forallb score_chr (list_ascii_of_string w) = true.
Proof.
  revert m.
  induction text as [|a text IH]; intros m; cbn [Re.search];
    rewrite score_here.
  - discriminate.
  - destruct (PyStr.strip_prefix "Score|" (String a text)) as [[|c rest]|];
      try apply IH.
    destruct (score_chr c) eqn:E; [|apply IH].
    intros [= <-]. exists (fst (span score_chr (String c rest))).
    split; [reflexivity|]. split.
    + cbn [span]. rewrite E. discriminate.
    + apply span_all.
Qed.

(** A pattern that starts with literal text finds nothing where that
    text does not occur. *)
Lemma search_literal_absent (w : string) (r : Re.regex) (text : string) :
  PyStr.contains w text = false ->
  Re.search (Re.Seq (Re.Lit w) r) text = None.
Proof.
  induction text as [|a text IH]; simpl; unfold Re.match_here; cbn [Re.run];
    destruct (PyStr.strip_prefix w _); try discriminate; auto.
Qed.

Lemma app_empty_r (s : string) : s +:+ EmptyString = s.
Proof.
  induction s as [|c s IH]; [reflexivity|]. rewrite app_cons. now rewrite IH.
Qed.

Lemma consumed_all (s : string) : Re.consumed s EmptyString = s.
Proof.
  rewrite <- (app_empty_r s) at 1. apply consumed_app.
Qed.

Lemma consumed_cons (c : ascii) (s : string) :
  Re.consumed (String c s) s = String c EmptyString.
Proof. apply (consumed_app (String c EmptyString) s). Qed.

Lemma consumed_none (s : string) : Re.consumed s s = EmptyString.
Proof. apply (consumed_app EmptyString s). Qed.

(** The lazy [.*?] followed by [(\||$)], from a position [s] of the text
    [pre +:+ s] that group 1 started at. *)
Lemma lazy_dot_scan
    (body : string -> Re.groups -> Re.cont -> option Re.groups)
    (k : string -> Re.cont) (g : Re.groups) :
  (forall s g' k', body s g' k'
     = Re.one (fun c => negb (Ascii.eqb c nl_chr)) s g' k') ->
  (forall s0 s1 g1, k s0 s1 g1
     = Re.orelse
         match PyStr.strip_prefix "|" s1 with
         | Some s' => Some ((2, Re.consumed s1 s') :: (1, Re.consumed s0 s1) :: g1)
         | None => None
         end
         (if Re.at_end s1
          then Some ((2, Re.consumed s1 s1) :: (1, Re.consumed s0 s1) :: g1)
          else None)) ->
  forall (s pre : string) (fuel : nat),
    String.length s < fuel ->
    Re.lazy_loop body fuel s g (k (pre +:+ s))
    = match feedback_scan s with
      | Some (w, d) => Some ((2, d) :: (1, pre +:+ w) :: g)
      | None => None
      end.
Proof.
  intros Hb Hk s.
  induction s as [|c s IH]; intros pre fuel Hf.
  - destruct fuel; simpl; rewrite Hk; simpl;
      now rewrite !consumed_all.
  - destruct fuel as [|fuel]; [simpl in Hf; lia|].
    cbn [Re.lazy_loop feedback_scan]. rewrite Hk, Hb.
    cbn [PyStr.strip_prefix Re.one].
    destruct (Ascii.eqb c "|") eqn:Ebar.
    + apply ascii_eqb_true in Ebar. subst c. simpl.
      rewrite (consumed_app pre), consumed_cons.
      now rewrite app_empty_r.
    + destruct (Re.at_end (String c s)) eqn:Eend.
      * simpl. rewrite (consumed_app pre), consumed_none.
        now rewrite app_empty_r.
      * simpl. destruct (Ascii.eqb c nl_chr); simpl; [reflexivity|].
        destruct (Nat.ltb_spec (String.length s) (S (String.length s)));
          [|lia].
        replace (pre +:+ String c s) with ((pre +:+ String c EmptyString) +:+ s)
          by now rewrite app_assoc_str.
        rewrite IH by (simpl in Hf; lia).
        destruct (feedback_scan s) as [[w d]|]; [|reflexivity].
        now rewrite app_assoc_str.
Qed.

(** What the feedback pattern does at one start position. *)
Lemma feedback_here (s : string) :
  Re.match_here feedback_re s
  = match PyStr.strip_prefix "Feedback|" s with
    | Some rest =>
        match feedback_scan rest with
        | Some (w, d) => Some [(2, d); (1, w)]
        | None => None
        end
    | None => None
    end.
Proof.
  unfold Re.match_here, feedback_re.
  cbn [Re.run].
  destruct (PyStr.strip_prefix "Feedback|" s) as [x|]; [|reflexivity].
  rewrite (lazy_dot_scan _
    (fun s0 s1 g1 =>
       Re.orelse
         match PyStr.strip_prefix "|" s1 with
         | Some s' => Some ((2, Re.consumed s1 s') :: (1, Re.consumed s0 s1) :: g1)
         | None => None
         end
         (if Re.at_end s1
          then Some ((2, Re.consumed s1 s1) :: (1, Re.consumed s0 s1) :: g1)
          else None)) [] ltac:(reflexivity) ltac:(reflexivity) x EmptyString).
  - reflexivity.
  - lia.
Qed.

(** A match of the feedback pattern always has group 1. *)
Lemma feedback_search_shape (text : string) (m : Re.groups) :
  Re.search feedback_re text = Some m ->
  exists w d, m = [(2, d); (1, w)].
Proof.
  revert m.
  induction text as [|a text IH]; intros m; cbn [Re.search];
    rewrite feedback_here.
  - discriminate.
  - destruct (PyStr.strip_prefix "Feedback|" (String a text)) as [rest|];
      [|apply IH].
    destruct (feedback_scan rest) as [[w d]|]; [|apply IH].
    intros [= <-]. now exists w, d.
Qed.

(** ** The response parser *)

Lemma clamp_range (q : Q) : (0 <= clamp q)%Q /\ (clamp q <= 10)%Q.
Proof.
  unfold clamp, py_max, py_min.
  destruct (Qle_bool 10 q) eqn:E1.
  - simpl. split; discriminate.
  - destruct (Qle_bool q 0) eqn:E2.
    + split; discriminate.
    + split.
      * apply Qlt_le_weak, Qnot_le_lt. intros H.
        apply Qle_bool_iff in H. congruence.
      * apply Qlt_le_weak, Qnot_le_lt. intros H.
        apply Qle_bool_iff in H. congruence.
Qed.

Lemma score_field_search (text : string) :
  match Re.search score_re text with
  | Some m => exists w, m = [(1, w)] /\ score_field text = Some w
  | None => score_field text = None
  end.
Proof.
  unfold score_field.
  destruct (Re.search score_re text) as [m|] eqn:E; [|reflexivity].
  destruct (score_search_shape _ _ E) as (w & -> & _).
  now exists w.
Qed.

Lemma feedback_field_search (text : string) :
  match Re.search feedback_re text with
  | Some m => exists w d, m = [(2, d); (1, w)] /\ feedback_field text = Some w
  | None => feedback_field text = None
  end.
Proof.
  unfold feedback_field.
  destruct (Re.search feedback_re text) as [m|] eqn:E; [|reflexivity].
  destruct (feedback_search_shape _ _ E) as (w & d & ->).
  now exists w, d.
Qed.

(** The body of the [try] raises exactly when [float] rejects the score
    text, and otherwise returns without touching the state. *)
Lemma parse_body_eq (text : string) (st : state) :
  parse_llm_response_body text st
  = match score_field text with
    | None => (Returned (5%Q, feedback_of text), st)
    | Some w =>
        match py_float w with
        | inr q => (Returned (clamp q, feedback_of text), st)
        | inl e => (Raised (Exception e), st)
        end
    end.
Proof.
  unfold parse_llm_response_body, feedback_of, bind.
  pose proof (score_field_search text) as Hs.
  pose proof (feedback_field_search text) as Hf.
  destruct (Re.search score_re text) as [ms|].
  - destruct Hs as (w & -> & ->). simpl.
    unfold call. destruct (py_float w) as [e|q]; [reflexivity|].
    unfold ret at 1.
    destruct (Re.search feedback_re text) as [mf|].
    + destruct Hf as (wf & d & -> & ->). reflexivity.
    + rewrite Hf. reflexivity.
  - rewrite Hs. unfold ret at 1.
    destruct (Re.search feedback_re text) as [mf|].
    + destruct Hf as (wf & d & -> & ->). reflexivity.
    + rewrite Hf. reflexivity.
Qed.

(** The parser in closed form. *)
Lemma parse_eq (text : string) (st : state) :
  parse_llm_response text st
  = match score_field text with
    | None => (Returned (5%Q, feedback_of text), st)
    | Some w =>
        match py_float w with
        | inr q => (Returned (clamp q, feedback_of text), st)
        | inl e =>
            (Returned (5%Q, "Could not parse analysis results"),
             printed (ParseError (exc_msg e)) st)
        end
    end.
Proof.
  unfold parse_llm_response, try_except. rewrite parse_body_eq.
  destruct (score_field text) as [w|]; [|reflexivity].
  destruct (py_float w) as [e|q]; reflexivity.
Qed.

(** The parser always returns, with a score between 0 and 10. *)
Lemma parse_returns (text : string) (st : state) :
  exists score feedback st',
    parse_llm_response text st = (Returned (score, feedback), st')
    /\ (0 <= score)%Q /\ (score <= 10)%Q
    /\ report st' = report st /\ dirs st' = dirs st
    /\ total_score st' = total_score st.
Proof.
  rewrite parse_eq.
  destruct (score_field text) as [w|].
  - destruct (py_float w) as [e|q].
    + do 3 eexists. split; [reflexivity|].
      repeat split; discriminate.
    + do 3 eexists. split; [reflexivity|].
      pose proof (clamp_range q) as [H0 H10]. repeat split; assumption.
  - do 3 eexists. split; [reflexivity|]. repeat split; discriminate.
Qed.

(** C3. Whatever the reply, the parser returns, and the score it returns
    lies in [0, 10]: the clamp maps every number into that range, a
    score of 15.0 comes back as 10, and -2.5, which the score pattern
    does not capture, comes back as the default 5. *)
Theorem parse_score_in_range :
  (forall (text : string) (st : state),
     exists score feedback st',
       parse_llm_response text st = (Returned (score, feedback), st')
       /\ (0 <= score)%Q /\ (score <= 10)%Q)
  /\ (forall q : Q, (0 <= clamp q)%Q /\ (clamp q <= 10)%Q)
  /\ (forall st : state,
        parse_llm_response "Score|15.0|" st
        = (Returned (10%Q, "No feedback parsed"), st))
  /\ (forall st : state,
        parse_llm_response "Score|-2.5|" st
        = (Returned (5%Q, "No feedback parsed"), st)).
Proof.
  split; [|split; [|split]].
  - intros text st.
    destruct (parse_returns text st) as (score & fb & st' & H & H0 & H10 & _).
    now exists score, fb, st'.
  - apply clamp_range.
  - intros st. rewrite parse_eq. reflexivity.
  - intros st. rewrite parse_eq. reflexivity.
Qed.

Lemma score_field_absent (text : string) :
  PyStr.contains "Score|" text = false -> score_field text = None.
Proof.
  intros H. unfold score_field, score_re.
  now rewrite search_literal_absent.
Qed.

Lemma feedback_field_absent (text : string) :
  PyStr.contains "Feedback|" text = false -> feedback_field text = None.
Proof.
  intros H. unfold feedback_field, feedback_re.
  now rewrite search_literal_absent.
Qed.

(** C5, as the code has it.  The parser never raises.  A reply without
    "Score|" gives exactly 5; a reply without "Feedback|" gives the
    feedback "No feedback parsed" whenever the body of the [try]
    returns; and when that body raises, the exception is caught, printed,
    and turned into 5 with the other text, "Could not parse analysis
    results". *)
Theorem parse_fallbacks (text : string) (st : state) :
  (exists score feedback st',
     parse_llm_response text st = (Returned (score, feedback), st'))
  /\ (PyStr.contains "Score|" text = false ->
      parse_llm_response text st = (Returned (5%Q, feedback_of text), st))
  /\ (PyStr.contains "Feedback|" text = false ->
      forall (score : Q) (feedback : string) (st' : state),
        parse_llm_response_body text st = (Returned (score, feedback), st') ->
        parse_llm_response text st
        = (Returned (score, "No feedback parsed"), st))
  /\ (forall (r : raised) (st' : state),
        parse_llm_response_body text st = (Raised r, st') ->
        exists e,
          r = Exception e
          /\ parse_llm_response text st
             = (Returned (5%Q, "Could not parse analysis results"),
                printed (ParseError (exc_msg e)) st)).
Proof.
  split; [|split; [|split]].
  - destruct (parse_returns text st) as (score & fb & st' & H & _).
    now exists score, fb, st'.
  - intros H. rewrite parse_eq. now rewrite score_field_absent.
  - intros H score feedback st'. rewrite parse_eq, parse_body_eq.
    unfold feedback_of. rewrite (feedback_field_absent _ H).
    destruct (score_field text) as [w|].
    + destruct (py_float w) as [e|q]; [discriminate|].
      now intros [= <- _ _].
    + now intros [= <- _ _].
  - intros r st'. rewrite parse_eq, parse_body_eq.
    destruct (score_field text) as [w|]; [|discriminate].
    destruct (py_float w) as [e|q]; [|discriminate].
    intros [= <- _]. now exists e.
Qed.

Lemma parse_fallbacks_witness :
  parse_llm_response "no fields here" (initial_state ∅)
  = (Returned (5%Q, "No feedback parsed"), initial_state ∅)
  /\ parse_llm_response "Score|7|" (initial_state ∅)
     = (Returned (7%Q, "No feedback parsed"), initial_state ∅)
  /\ exists e,
       parse_llm_response "Score|1.2.3|" (initial_state ∅)
       = (Returned (5%Q, "Could not parse analysis results"),
          printed (ParseError (exc_msg e)) (initial_state ∅)).
Proof.
  split; [|split].
  - destruct (parse_fallbacks "no fields here" (initial_state ∅))
      as (_ & H & _).
    apply H. reflexivity.
  - destruct (parse_fallbacks "Score|7|" (initial_state ∅))
      as (_ & _ & H & _).
    apply (H eq_refl 7%Q "No feedback parsed" (initial_state ∅)).
    reflexivity.
  - destruct (parse_fallbacks "Score|1.2.3|" (initial_state ∅))
      as (_ & _ & _ & H).
    destruct (H (Exception (ValueError
        "could not convert string to float: '1.2.3'")) (initial_state ∅))
      as (e & _ & He).
    + reflexivity.
    + now exists e.
Defined.

(** C5 as worded fails on the reply [Score|1.2.3|]: it has no feedback
    field and [float] raises on its score, and the feedback returned is
    "Could not parse analysis results", not the "No feedback parsed" that
    a reply without feedback field gets otherwise. *)
Lemma parse_error_fallback_is_another_text :
  PyStr.contains "Feedback|" "Score|1.2.3|" = false
  /\ parse_llm_response "Score|1.2.3|" (initial_state ∅)
     = (Returned (5%Q, "Could not parse analysis results"),
        printed (ParseError "could not convert string to float: '1.2.3'")
          (initial_state ∅))
  /\ parse_llm_response "Score|7|" (initial_state ∅)
     = (Returned (7%Q, "No feedback parsed"), initial_state ∅)
  /\ "Could not parse analysis results" <> "No feedback parsed".
Proof.
  repeat split; discriminate.
Qed.

(** The score pattern finds nothing when a minus sign follows every
    "Score|". *)
Lemma score_search_minus (text : string) :
  every_occurrence "Score|" starts_with_minus text = true ->
  Re.search score_re text = None.
Proof.
  induction text as [|a text IH]; cbn [Re.search every_occurrence];
    rewrite score_here; intros H; apply andb_prop in H as [H1 H2].
  - reflexivity.
  - rewrite (IH H2).
    destruct (PyStr.strip_prefix "Score|" (String a text)) as [[|c rest]|];
      try reflexivity.
    simpl in H1. apply ascii_eqb_true in H1. subst c. reflexivity.
Qed.

(** C10. When every "Score|" of the reply is followed by a minus sign, as
    in [Score|-3|], the score pattern has no match, because "-" is not
    in its character set, and the parser returns the default 5 rather
    than a score clamped to 0. *)
Theorem negative_score_takes_default (text : string) (st : state) :
  every_occurrence "Score|" starts_with_minus text = true ->
  score_chr "-" = false
  /\ Re.search score_re text = None
  /\ parse_llm_response text st = (Returned (5%Q, feedback_of text), st).
Proof.
  intros H. pose proof (score_search_minus text H) as Hs.
  split; [reflexivity|]. split; [exact Hs|].
  rewrite parse_eq. unfold score_field. now rewrite Hs.
Qed.

Lemma negative_score_takes_default_witness :
  PyStr.contains "Score|" "Score|-3|" = true
  /\ parse_llm_response "Score|-3|" (initial_state ∅)
     = (Returned (5%Q, "No feedback parsed"), initial_state ∅).
Proof.
  split; [reflexivity|].
  apply (negative_score_takes_default "Score|-3|" (initial_state ∅)).
  reflexivity.
Defined.

(** *** The two-line template *)

Lemma strip_prefix_app (w s : string) :
  PyStr.strip_prefix w (w +:+ s) = Some s.
Proof.
  induction w as [|c w IH]; [reflexivity|].
  rewrite app_cons. simpl. now rewrite Ascii.eqb_refl.
Qed.

Lemma mem_chr_app (c : ascii) (s1 s2 : string) :
  PyStr.mem_chr c (s1 +:+ s2) = PyStr.mem_chr c s1 || PyStr.mem_chr c s2.
Proof.
  induction s1 as [|a s1 IH]; [reflexivity|].
  rewrite app_cons. simpl. rewrite IH. now rewrite orb_assoc.
Qed.

Lemma span_exact (p : ascii -> bool) (w rest : string) :
  forallb p (list_ascii_of_string w) = true ->
  fst (span p rest) = EmptyString ->
  span p (w +:+ rest) = (w, rest).
Proof.
  intros Hw Hr.
  induction w as [|c w IH].
  - rewrite app_empty. rewrite (span_app p rest) at 2.
    rewrite Hr, app_empty.
    destruct (span p rest) as [x y]. simpl in *. now subst x.
  - simpl in Hw. apply andb_prop in Hw as [Hc Hw].
    rewrite app_cons. simpl. rewrite Hc, (IH Hw). reflexivity.
Qed.

Lemma forallb_not_mem (p : ascii -> bool) (c : ascii) (w : string) :
  forallb p (list_ascii_of_string w) = true ->
  p c = false ->
  PyStr.mem_chr c w = false.
Proof.
  intros Hw Hc.
  induction w as [|a w IH]; [reflexivity|].
  simpl in *. apply andb_prop in Hw as [Ha Hw].
  rewrite (IH Hw), orb_false_r.
  destruct (Ascii.eqb a c) eqn:E; [|reflexivity].
  apply ascii_eqb_true in E. congruence.
Qed.

(** A text that [float] accepts is a non-empty text of digits and dots. *)
Lemma scan_decimal_chars (s : string) (seen : bool) (n : nat) (m : Z)
    (d : positive) (r : Z * positive) :
  scan_decimal s seen n m d = Some r ->
  forallb score_chr (list_ascii_of_string s) = true
  /\ (s = EmptyString -> n <> 0).
Proof.
  revert seen n m d.
  induction s as [|c s IH]; intros seen n m d; simpl.
  - destruct (Nat.eqb_spec n 0); [discriminate|]. auto.
  - unfold score_chr at 1. destruct (is_digit c); simpl.
    + intros H. apply IH in H as [H _]. split; [exact H | discriminate].
    + destruct (Ascii.eqb c "."); simpl; [|discriminate].
      destruct seen; simpl; [discriminate|].
      intros H. apply IH in H as [H _]. split; [exact H | discriminate].
Qed.

Lemma py_float_chars (s : string) (q : Q) :
  py_float s = inr q ->
  forallb score_chr (list_ascii_of_string s) = true /\ s <> EmptyString.
Proof.
  unfold py_float.
  destruct (scan_decimal s false 0 0 1) as [[m d]|] eqn:E; [|discriminate].
  intros _. apply scan_decimal_chars in E as [H1 H2].
  split; [exact H1|]. intros ->. now apply H2.
Qed.

(** A match at the first position is what the search returns. *)
Lemma search_hit (r : Re.regex) (s : string) (g : Re.groups) :
  Re.match_here r s = Some g -> Re.search r s = Some g.
Proof.
  intros H. destruct s; cbn [Re.search]; now rewrite H.
Qed.

(** The feedback pattern skips a prefix that has no "F". *)
Lemma feedback_search_skip (pre s : string) :
  PyStr.mem_chr "F" pre = false ->
  Re.search feedback_re (pre +:+ s) = Re.search feedback_re s.
Proof.
  induction pre as [|c pre IH]; intros H; [reflexivity|].
  simpl in H. apply orb_false_elim in H as [Hc Hp].
  rewrite app_cons. cbn [Re.search]. rewrite feedback_here.
  simpl. rewrite Hc. now apply IH.
Qed.

(** A feedback text without "|" and newline is captured whole. *)
Lemma feedback_scan_plain (w rest : string) :
  PyStr.mem_chr "|" w = false ->
  PyStr.mem_chr nl_chr w = false ->
  feedback_scan (w +:+ "|" +:+ rest) = Some (w, "|").
Proof.
  induction w as [|c w IH]; intros Hb Hn; [reflexivity|].
  simpl in Hb, Hn.
  apply orb_false_elim in Hb as [Hb1 Hb2].
  apply orb_false_elim in Hn as [Hn1 Hn2].
  rewrite app_cons. cbn [feedback_scan]. rewrite Hb1, Hn1, (IH Hb2 Hn2).
  destruct w; reflexivity.
Qed.

(** C7, as the code has it.  On a reply that follows the two-line
    template, with a score text that [float] accepts and a feedback text
    without "|" and newline, the score pattern captures the score text
    and the feedback pattern the feedback text, both verbatim; the parser
    then returns the value of the score clamped to [0, 10] and the
    feedback with the white space at both ends stripped. *)
Theorem parse_template (score_text feedback_text : string) (q : Q) (st : state) :
  py_float score_text = inr q ->
  PyStr.mem_chr "|" feedback_text = false ->
  PyStr.mem_chr nl_chr feedback_text = false ->
  score_field (template_reply score_text feedback_text) = Some score_text
  /\ feedback_field (template_reply score_text feedback_text) = Some feedback_text
  /\ parse_llm_response (template_reply score_text feedback_text) st
     = (Returned (clamp q, PyStr.strip feedback_text), st).
Proof.
  intros Hq Hb Hn.
  destruct (py_float_chars _ _ Hq) as [Hall Hne].
  assert (Hs : score_field (template_reply score_text feedback_text)
               = Some score_text).
  { unfold score_field, template_reply.
    destruct score_text as [|c w]; [congruence|].
    rewrite (search_hit _ _ [(1, String c w)]); [reflexivity|].
    rewrite score_here, strip_prefix_app, app_cons.
    pose proof Hall as Hall'. simpl in Hall'.
    apply andb_prop in Hall' as [Hc _]. rewrite Hc.
    rewrite <- app_cons, span_exact by (assumption || reflexivity).
    reflexivity. }
  assert (Hf : feedback_field (template_reply score_text feedback_text)
               = Some feedback_text).
  { unfold feedback_field, template_reply.
    replace ("Score|" +:+ score_text +:+ "|" +:+ nl +:+ "Feedback|"
             +:+ feedback_text +:+ "|")
      with (("Score|" +:+ score_text +:+ "|" +:+ nl)
            +:+ "Feedback|" +:+ feedback_text +:+ "|" +:+ EmptyString)
      by (rewrite !app_assoc_str; reflexivity).
    rewrite feedback_search_skip.
    - rewrite (search_hit _ _ [(2, "|"); (1, feedback_text)]);
        [reflexivity|].
      rewrite feedback_here, strip_prefix_app.
      rewrite feedback_scan_plain by assumption. reflexivity.
    - rewrite !mem_chr_app.
      rewrite (forallb_not_mem score_chr "F" score_text Hall eq_refl).
      reflexivity. }
  split; [exact Hs|]. split; [exact Hf|].
  rewrite parse_eq, Hs, Hq. unfold feedback_of. now rewrite Hf.
Qed.

Lemma parse_template_witness :
  parse_llm_response (template_reply "7.5" "missing tests") (initial_state ∅)
  = (Returned ((15 # 2)%Q, "missing tests"), initial_state ∅).
Proof.
  apply (parse_template "7.5" "missing tests" (15 # 2)%Q (initial_state ∅));
    reflexivity.
Defined.

(** C7 as worded fails on replies that follow the template: the feedback
    [ ok ] comes back without its blanks, the feedback [a|b] is cut at
    its "|", and the score [12] comes back as 10. *)
Lemma parse_template_not_verbatim :
  parse_llm_response (template_reply "7.5" " ok ") (initial_state ∅)
    = (Returned ((15 # 2)%Q, "ok"), initial_state ∅)
  /\ "ok" <> " ok "
  /\ parse_llm_response (template_reply "7.5" "a|b") (initial_state ∅)
    = (Returned ((15 # 2)%Q, "a"), initial_state ∅)
  /\ parse_llm_response (template_reply "12" "fine") (initial_state ∅)
    = (Returned (10%Q, "fine"), initial_state ∅)
  /\ py_float "12" = inr 12%Q.
Proof.
  repeat split; discriminate.
Qed.

(** ** The inference client *)

Lemma analyze_eq (generate : string -> exception + string)
    (file_path content requirements : string) (st : state) :
  analyze_submission generate file_path content requirements st
  = match generate (prompt_of file_path content requirements) with
    | inl e =>
        (Returned (0%Q, "Analysis failed"),
         printed (ErrorAnalyzing file_path (exc_msg e)) st)
    | inr response =>
        parse_llm_response response (raw_response_printed file_path response st)
    end.
Proof.
  unfold analyze_submission, try_except, bind, call.
  destruct (generate (prompt_of file_path content requirements))
    as [e|response]; [reflexivity|].
  simpl.
  destruct (parse_returns response (raw_response_printed file_path response st))
    as (score & fb & st' & H & _).
  unfold raw_response_printed, printed in H. simpl in H.
  unfold raw_response_printed, printed. simpl.
  now rewrite H.
Qed.

(** The client always returns, with a score between 0 and 10, and
    touches nothing but the console. *)
Lemma analyze_returns (generate : string -> exception + string)
    (file_path content requirements : string) (st : state) :
  exists score feedback st',
    analyze_submission generate file_path content requirements st
    = (Returned (score, feedback), st')
    /\ (0 <= score)%Q /\ (score <= 10)%Q
    /\ report st' = report st /\ dirs st' = dirs st
    /\ total_score st' = total_score st.
Proof.
  rewrite analyze_eq.
  destruct (generate (prompt_of file_path content requirements))
    as [e|response].
  - do 3 eexists. split; [reflexivity|]. repeat split; discriminate.
  - destruct (parse_returns response
                (raw_response_printed file_path response st))
      as (score & fb & st' & H & H0 & H10 & Hr & Hd & Ht).
    exists score, fb, st'. repeat split; assumption.
Qed.

(** ** The file loop *)

(** An eligible file that reads is graded with what the client returns. *)
Lemma process_file_graded (generate : string -> exception + string)
    (asurite_id extract_dir requirements : string) (file : dir_entry)
    (content : string) (score : Q) (feedback : string) (st st1 : state) :
  e_is_file file = true ->
  suffix_allowed (PyPath.suffix (e_rel file)) = true ->
  e_read file = inr content ->
  analyze_submission generate (e_rel file) content requirements
    (printed (Analyzing (e_rel file)) st) = (Returned (score, feedback), st1) ->
  process_file generate asurite_id extract_dir requirements file st
  = (Returned tt, graded asurite_id (e_rel file) score feedback st1).
Proof.
  intros Hf Hs Hr Ha.
  unfold process_file. rewrite Hf, Hs, Hr. simpl.
  unfold try_except, bind. simpl.
  unfold printed in Ha. rewrite Ha. reflexivity.
Qed.

Lemma process_file_spec (generate : string -> exception + string)
    (asurite_id extract_dir requirements : string) (file : dir_entry)
    (st : state) :
  exists st',
    process_file generate asurite_id extract_dir requirements file st
    = (Returned tt, st')
    /\ dirs st' = dirs st
    /\ ((report st' = report st /\ total_score st' = total_score st)
        \/ exists score feedback,
             (0 <= score)%Q /\ (score <= 10)%Q
             /\ report st'
                = report st
                  ++ [GradeRow asurite_id (e_rel file) score feedback
                        (total_score st + score)%Q]
             /\ total_score st' = (total_score st + score)%Q).
Proof.
  destruct (e_is_file file && suffix_allowed (PyPath.suffix (e_rel file)))
    eqn:E.
  - apply andb_prop in E as [Hf Hs].
    destruct (e_read file) as [e|content] eqn:Hr.
    + unfold process_file. rewrite Hf, Hs, Hr. simpl.
      eexists. split; [reflexivity|]. simpl. auto.
    + destruct (analyze_returns generate (e_rel file) content requirements
                  (printed (Analyzing (e_rel file)) st))
        as (score & fb & st1 & Ha & H0 & H10 & Hrep & Hd & Ht).
      rewrite (process_file_graded _ _ _ _ _ _ _ _ _ _ Hf Hs Hr Ha).
      eexists. split; [reflexivity|]. simpl.
      split; [exact Hd|]. right. exists score, fb.
      rewrite Hrep, Ht. simpl. auto.
  - unfold process_file. rewrite E.
    eexists. split; [reflexivity|]. auto.
Qed.

Lemma totals_step (t s : Q) : (0 <= s)%Q -> (t <= t + s)%Q.
Proof. intros H. lra. Qed.

(** The loop over the entries of a submission always runs to its end;
    it leaves the directories alone and appends rows whose totals run
    from the total it started with. *)
Lemma process_files_spec (generate : string -> exception + string)
    (asurite_id extract_dir requirements : string)
    (entries : list dir_entry) (st : state) :
  exists st' rows,
    for_each entries
      (process_file generate asurite_id extract_dir requirements) st
    = (Returned tt, st')
    /\ dirs st' = dirs st
    /\ report st' = report st ++ rows
    /\ totals_run_from (total_score st) rows.
Proof.
  revert st.
  induction entries as [|file entries IH]; intros st.
  - exists st, []. simpl. rewrite app_nil_r. auto.
  - destruct (process_file_spec generate asurite_id extract_dir requirements
                file st) as (st1 & H1 & Hd1 & Hrows).
    destruct (IH st1) as (st' & rows & H & Hd & Hrep & Htot).
    cbn [for_each]. unfold bind. rewrite H1, H.
    destruct Hrows as [[Hr1 Ht1] | (score & fb & H0 & H10 & Hr1 & Ht1)].
    + exists st', rows. rewrite Hd, Hd1, Hrep, Hr1, <- Ht1. auto.
    + exists st', (GradeRow asurite_id (e_rel file) score fb
                     (total_score st + score)%Q :: rows).
      rewrite Hd, Hd1, Hrep, Hr1, <- List.app_assoc.
      repeat split; try assumption.
      * simpl. now apply totals_step.
      * simpl. now rewrite <- Ht1.
Qed.

(** C4. When the inference call raises, the client catches the
    exception, prints it, and returns exactly (0.0, "Analysis failed");
    the file loop then writes the row of that file and goes on with the
    files that follow, and no run of the file loop ends in an
    exception. *)
Theorem inference_failure_fallback
    (generate : string -> exception + string)
    (asurite_id extract_dir requirements content : string)
    (file : dir_entry) (rest : list dir_entry) (e : exception) (st : state) :
  generate (prompt_of (e_rel file) content requirements) = inl e ->
  e_is_file file = true ->
  suffix_allowed (PyPath.suffix (e_rel file)) = true ->
  e_read file = inr content ->
  analyze_submission generate (e_rel file) content requirements st
    = (Returned (0%Q, "Analysis failed"),
       printed (ErrorAnalyzing (e_rel file) (exc_msg e)) st)
  /\ for_each (file :: rest)
       (process_file generate asurite_id extract_dir requirements) st
     = for_each rest
         (process_file generate asurite_id extract_dir requirements)
         (graded asurite_id (e_rel file) 0 "Analysis failed"
            (printed (ErrorAnalyzing (e_rel file) (exc_msg e))
               (printed (Analyzing (e_rel file)) st)))
  /\ exists st',
       for_each (file :: rest)
         (process_file generate asurite_id extract_dir requirements) st
       = (Returned tt, st').
Proof.
  intros Hg Hf Hs Hr.
  split; [|split].
  - rewrite analyze_eq. now rewrite Hg.
  - cbn [for_each]. unfold bind at 1.
    rewrite (process_file_graded generate asurite_id extract_dir requirements
               file content 0%Q "Analysis failed" st
               (printed (ErrorAnalyzing (e_rel file) (exc_msg e))
                  (printed (Analyzing (e_rel file)) st)) Hf Hs Hr).
    + reflexivity.
    + rewrite analyze_eq. now rewrite Hg.
  - destruct (process_files_spec generate asurite_id extract_dir requirements
                (file :: rest) st) as (st' & rows & H & _).
    now exists st'.
Qed.

Lemma inference_failure_fallback_witness :
  for_each [main_py; config_yaml]
    (process_file reply_refused "abc123" "temp/abc123" "Implement the handler.")
    (initial_state ∅)
  = for_each [config_yaml]
      (process_file reply_refused "abc123" "temp/abc123" "Implement the handler.")
      (graded "abc123" "main.py" 0 "Analysis failed"
         (printed (ErrorAnalyzing "main.py" "connection refused")
            (printed (Analyzing "main.py") (initial_state ∅)))).
Proof.
  apply (inference_failure_fallback reply_refused "abc123" "temp/abc123"
           "Implement the handler." "print(1)" main_py [config_yaml]
           {| exc_class := "ConnectionError"; exc_msg := "connection refused" |}
           (initial_state ∅)); reflexivity.
Defined.

(** ** The archive loop *)

Lemma asurite_id_defined (zip_path : string) :
  exists asurite_id, asurite_id_of zip_path = Some asurite_id.
Proof.
  unfold asurite_id_of.
  destruct (split_head "-" (PyPath.stem zip_path)) as (w & ws & Hs & _).
  rewrite Hs. now exists w.
Qed.

(** An archive whose extraction raises: the exception leaves
    [process_archive]. *)
Lemma process_archive_extract_failed
    (generate : string -> exception + string) (requirements : string)
    (a : archive) (asurite_id : string) (e : exception) (created : bool)
    (st : state) :
  asurite_id_of (a_path a) = Some asurite_id ->
  a_open a = None ->
  a_extract a = ExtractFailed e created ->
  process_archive generate requirements a st
  = (Raised (Exception e), extraction_failed asurite_id created st).
Proof.
  intros Hi Ho He.
  unfold process_archive, extractall, bind. rewrite Hi, Ho, He. simpl.
  destruct created; reflexivity.
Qed.

(** An archive that unpacks: the file loop runs, then [rmtree]. *)
Lemma process_archive_extracted
    (generate : string -> exception + string) (requirements : string)
    (a : archive) (asurite_id : string) (entries : list dir_entry)
    (st st1 : state) :
  asurite_id_of (a_path a) = Some asurite_id ->
  a_open a = None ->
  a_extract a = Extracted entries ->
  for_each entries
    (process_file generate asurite_id (extract_dir_of asurite_id) requirements)
    (submission_started asurite_id entries st) = (Returned tt, st1) ->
  process_archive generate requirements a st
  = (Returned tt, directory_removed a asurite_id st1).
Proof.
  intros Hi Ho He Hl.
  unfold process_archive, extractall, bind. rewrite Hi, Ho, He. simpl.
  unfold submission_started in Hl. rewrite Hl.
  unfold rmtree_ignore_errors, directory_removed, bind. simpl.
  destruct (a_rmtree_ok a); reflexivity.
Qed.

Lemma report_directory_removed (a : archive) (asurite_id : string) (st : state) :
  report (directory_removed a asurite_id st) = report st.
Proof. unfold directory_removed. now destruct (a_rmtree_ok a). Qed.


(** C6, as the code has it.  For an archive that opens and unpacks,
    whatever happens to its files, [process_archive] returns and has run
    [rmtree] on the working directory: the directory is gone when the
    deletion goes through, and when it does not, the error is swallowed
    and the directories are as the file loop left them. *)
Theorem working_directory_cleanup
    (generate : string -> exception + string) (requirements : string)
    (a : archive) (entries : list dir_entry) (st : state) :
  a_open a = None ->
  a_extract a = Extracted entries ->
  exists asurite_id st',
    asurite_id_of (a_path a) = Some asurite_id
    /\ process_archive generate requirements a st = (Returned tt, st')
    /\ dirs st'
       = (if a_rmtree_ok a
          then dirs (submission_started asurite_id entries st)
               ∖ {[ extract_dir_of asurite_id ]}
          else dirs (submission_started asurite_id entries st))
    /\ (a_rmtree_ok a = true -> extract_dir_of asurite_id ∉ dirs st').
Proof.
  intros Ho He.
  destruct (asurite_id_defined (a_path a)) as (asurite_id & Hi).
  destruct (process_files_spec generate asurite_id
              (extract_dir_of asurite_id) requirements entries
              (submission_started asurite_id entries st))
    as (st1 & rows & Hl & Hd & _).
  exists asurite_id, (directory_removed a asurite_id st1).
  split; [exact Hi|].
  split; [exact (process_archive_extracted _ _ _ _ _ _ _ Hi Ho He Hl)|].
  unfold directory_removed.
  destruct (a_rmtree_ok a); simpl; rewrite Hd.
  - split; [reflexivity|]. intros _.
    rewrite elem_of_difference, elem_of_singleton. now intros [_ H].
  - split; [reflexivity|]. discriminate.
Qed.

Lemma working_directory_cleanup_witness :
  exists st',
    process_archive reply_refused "Implement the handler." archive_fine
      (initial_state {[ "temp/abc123" ]}) = (Returned tt, st')
    /\ "temp/abc123" ∉ dirs st'.
Proof.
  destruct (working_directory_cleanup reply_refused "Implement the handler."
              archive_fine [main_py; config_yaml]
              (initial_state {[ "temp/abc123" ]}) eq_refl eq_refl)
    as (asurite_id & st' & Hi & Hp & _ & Hd).
  injection Hi as <-.
  exists st'. split; [exact Hp | exact (Hd eq_refl)].
Defined.

(** C6 as worded fails when the deletion does not go through: the
    directory of the first submission is still there at the end of the
    run, which returns without any exception. *)
Lemma undeletable_directory_remains :
  fst (process_submissions
         (world_of [archive_undeletable; archive_fine] reply_fine)
         (initial_state ∅)) = Returned tt
  /\ "temp/xyz789"
     ∈ dirs (snd (process_submissions
                    (world_of [archive_undeletable; archive_fine] reply_fine)
                    (initial_state ∅))).
Proof.
  split; [vm_compute; reflexivity|].
  apply (bool_decide_unpack _). vm_compute. exact I.
Qed.

(** ** The whole run *)


(** With the rubric read, a run is the archive loop between the opening
    and the closing of the report. *)
Lemma process_submissions_eq (w : world) (pages : list string) (st : state) :
  w_doc w = inr pages ->
  process_submissions w st
  = (fst (for_each (w_archives w)
            (process_archive (w_generate w) (extract_requirements_text pages))
            (header_written st)),
     closed (snd (for_each (w_archives w)
            (process_archive (w_generate w) (extract_requirements_text pages))
            (header_written st)))).
Proof.
  intros Hd.
  unfold process_submissions, extract_requirements, try_except_class, bind.
  rewrite Hd. simpl. unfold with_open_csv, bind. simpl.
  unfold header_written.
  destruct (for_each _ _ _) as [o st1]. reflexivity.
Qed.




(** * Further properties of the code *)

(** ** The requirement loader *)



Lemma len_join_app_ge (sep : string) (l1 : list string) (p : string)
    (l2 : list string) :
  PyStr.len (PyStr.join sep l1) + PyStr.len p
  <= PyStr.len (PyStr.join sep (l1 ++ p :: l2)).
Proof.
  unfold PyStr.len, PyStr.join.
  induction l1 as [|x l1 IH].
  - simpl. destruct l2; [lia|]. rewrite len_app. lia.
  - destruct l1 as [|z l1].
    + change (String.concat sep ([x] ++ p :: l2))
        with (x +:+ sep +:+ String.concat sep (p :: l2)).
      rewrite !len_app.
      change (String.concat sep [x]) with x.
      change ([] ++ p :: l2) with (p :: l2) in IH.
      change (String.length (String.concat sep [])) with 0 in IH. lia.
    + change (String.concat sep ((x :: z :: l1) ++ p :: l2))
        with (x +:+ sep +:+ String.concat sep ((z :: l1) ++ p :: l2)).
      change (String.concat sep (x :: z :: l1))
        with (x +:+ sep +:+ String.concat sep (z :: l1)).
      rewrite !len_app. lia.
Qed.

Lemma fold_all_fit (pages full_text : list string) :
  PyStr.len (PyStr.join nl (full_text ++ pages)) < 2500 ->
  fold_left extract_requirements_step pages full_text = full_text ++ pages.
Proof.
  revert full_text.
  induction pages as [|p pages IH]; intros full_text H; simpl.
  - now rewrite app_nil_r.
  - pose proof (len_join_app_ge nl full_text p pages) as Hge.
    unfold extract_requirements_step.
    destruct (Nat.ltb_spec
      (PyStr.len (PyStr.join nl full_text) + PyStr.len p) 2500) as [Hlt|Hn];
      [|lia].
    rewrite IH; rewrite <- List.app_assoc; [reflexivity | exact H].
Qed.

(** X2. A document whose pages, joined with newlines, stay under 2500
    characters is returned whole: no page is dropped. *)
Theorem short_document_is_kept_whole (pages : list string) :
  PyStr.len (PyStr.join nl pages) < 2500 ->
  extract_requirements_loop pages = pages
  /\ extract_requirements_text pages = PyStr.join nl pages.
Proof.
  intros H.
  assert (E : extract_requirements_loop pages = pages).
  { unfold extract_requirements_loop. now rewrite fold_all_fit. }
  split; [exact E|]. unfold extract_requirements_text. now rewrite E.
Qed.

Lemma short_document_is_kept_whole_witness :
  extract_requirements_text ["Part A: handler."; EmptyString; "Part B: tests."]
  = PyStr.join nl ["Part A: handler."; EmptyString; "Part B: tests."].
Proof.
  apply (short_document_is_kept_whole
           ["Part A: handler."; EmptyString; "Part B: tests."]).
  vm_compute. lia.
Defined.

(** ** The prompt *)

Lemma substring_0_app_ge (n : nat) (s t : string) :
  n <= String.length s ->
  String.substring 0 n (s +:+ t) = String.substring 0 n s.
Proof.
  revert n.
  induction s as [|c s IH]; intros n H.
  - simpl in H. replace n with 0 by lia. now destruct t.
  - destruct n as [|n]; [reflexivity|].
    rewrite app_cons. simpl. rewrite IH by (simpl in H; lia). reflexivity.
Qed.

(** X3. Only the first 2500 characters of a file reach the model: for a
    content of 2500 characters or more, whatever follows it changes
    neither the prompt nor the result of [analyze_submission]. *)
Theorem content_beyond_2500_is_invisible
    (generate : string -> exception + string)
    (file_path content extra requirements : string) (st : state) :
  2500 <= PyStr.len content ->
  prompt_of file_path (content +:+ extra) requirements
    = prompt_of file_path content requirements
  /\ analyze_submission generate file_path (content +:+ extra) requirements st
     = analyze_submission generate file_path content requirements st.
Proof.
  intros H.
  assert (E : prompt_of file_path (content +:+ extra) requirements
              = prompt_of file_path content requirements).
  { unfold prompt_of, PyStr.take. now rewrite substring_0_app_ge. }
  split; [exact E|].
  rewrite !analyze_eq. now rewrite E.
Qed.

Lemma content_beyond_2500_is_invisible_witness :
  prompt_of "main.py" (PyStr.replicate 2500 "x" +:+ "import os") "req"
  = prompt_of "main.py" (PyStr.replicate 2500 "x") "req".
Proof.
  apply (content_beyond_2500_is_invisible reply_fine "main.py"
           (PyStr.replicate 2500 "x") "import os" "req" (initial_state ∅)).
  vm_compute. lia.
Defined.

(** ** [float] on the score text *)

Lemma digit_not_dot (c : ascii) : is_digit c = true -> Ascii.eqb c "." = false.
Proof.
  intros H. destruct (Ascii.eqb c ".") eqn:E; [|reflexivity].
  apply ascii_eqb_true in E. subst c. discriminate.
Qed.

Lemma digit_value_nonneg (c : ascii) : (0 <= digit_value c)%Z.
Proof. unfold digit_value. lia. Qed.

(** The scanner accepts a text of digits and dots exactly when it brings
    a digit, counting the ones read before, and at most one dot,
    counting the one read before; the integer it builds is not
    negative. *)
Lemma scan_decimal_spec (s : string) :
  forallb score_chr (list_ascii_of_string s) = true ->
  forall (seen : bool) (n : nat) (m : Z) (d : positive),
    (0 <= m)%Z ->
    match scan_decimal s seen n m d with
    | Some (m', _) =>
        1 <= n + count_digits s
        /\ count_chr "." s + (if seen then 1 else 0) <= 1
        /\ (0 <= m')%Z
    | None =>
        n + count_digits s = 0
        \/ 2 <= count_chr "." s + (if seen then 1 else 0)
    end.
Proof.
  induction s as [|c s IH]; intros Hall seen n m d Hm.
  - simpl. destruct (Nat.eqb_spec n 0).
    + left. lia.
    + destruct seen; repeat split; try lia.
  - simpl in Hall. apply andb_prop in Hall as [Hc Hs].
    cbn [scan_decimal count_digits count_chr].
    destruct (is_digit c) eqn:Ed.
    + rewrite (digit_not_dot c Ed).
      pose proof (digit_value_nonneg c) as Hv.
      specialize (IH Hs seen (S n) (10 * m + digit_value c)%Z
                    (if seen then (10 * d)%positive else d)).
      destruct (scan_decimal s seen (S n) _ _) as [[m' d']|].
      * destruct IH as (H1 & H2 & H3); [lia|]. repeat split; lia.
      * destruct IH as [H|H]; [lia| lia |right; lia].
    + unfold score_chr in Hc. rewrite Ed in Hc. simpl in Hc. rewrite Hc.
      destruct seen; simpl.
      * right. lia.
      * specialize (IH Hs true n m d Hm).
        destruct (scan_decimal s true n m d) as [[m' d']|].
        -- destruct IH as (H1 & H2 & H3). repeat split; lia.
        -- destruct IH as [H|H]; [left; lia | right; lia].
Qed.

(** On a text of digits and dots [float] raises [ValueError] exactly
    when the text has no digit or more than one dot; otherwise it gives
    a number that is not negative. *)
Lemma py_float_spec (w : string) :
  forallb score_chr (list_ascii_of_string w) = true ->
  match py_float w with
  | inr q => 1 <= count_digits w /\ count_chr "." w <= 1 /\ (0 <= q)%Q
  | inl e =>
      (count_digits w = 0 \/ 2 <= count_chr "." w)
      /\ e = ValueError ("could not convert string to float: '" +:+ w +:+ "'")
  end.
Proof.
  intros Hall. unfold py_float.
  pose proof (scan_decimal_spec w Hall false 0 0%Z 1%positive (Z.le_refl 0)) as H.
  destruct (scan_decimal w false 0 0 1) as [[m d]|].
  - destruct H as (H1 & H2 & H3). repeat split; try lia.
    rewrite Qred_correct. unfold Qle. simpl. lia.
  - split; [|reflexivity]. destruct H as [H|H]; [left|right]; lia.
Qed.

Lemma score_field_chars (text w : string) :
  score_field text = Some w ->
  forallb score_chr (list_ascii_of_string w) = true.
Proof.
  intros H. pose proof (score_field_search text) as Hs.
  destruct (Re.search score_re text) as [m|] eqn:E.
  - destruct Hs as (w' & -> & Hw). rewrite H in Hw. injection Hw as <-.
    destruct (score_search_shape _ _ E) as (w'' & [= <-] & _ & Hall).
    exact Hall.
  - congruence.
Qed.

(** X4. The text the score pattern captured decides how parsing ends.
    With at least one digit and at most one dot it is read as a number
    that is not negative, and the parser returns its clamp with the
    feedback found; with no digit or with two dots or more, [float]
    raises, and the parser prints the error and returns 5 with
    "Could not parse analysis results", whatever feedback the reply
    held. *)
Theorem score_text_decides_parse_fallback (text w : string) (st : state) :
  score_field text = Some w ->
  if (1 <=? count_digits w) && (count_chr "." w <=? 1)
  then exists q,
         py_float w = inr q /\ (0 <= q)%Q
         /\ parse_llm_response text st
            = (Returned (clamp q, feedback_of text), st)
  else parse_llm_response text st
       = (Returned (5%Q, "Could not parse analysis results"),
          printed
            (ParseError ("could not convert string to float: '" +:+ w +:+ "'"))
            st).
Proof.
  intros Hs.
  pose proof (py_float_spec w (score_field_chars text w Hs)) as Hf.
  rewrite parse_eq, Hs.
  destruct (py_float w) as [e|q].
  - destruct Hf as [Hbad ->].
    destruct (Nat.leb_spec 1 (count_digits w));
      destruct (Nat.leb_spec (count_chr "." w) 1); simpl;
      try reflexivity; lia.
  - destruct Hf as (H1 & H2 & H0).
    apply Nat.leb_le in H1. apply Nat.leb_le in H2. rewrite H1, H2. simpl.
    now exists q.
Qed.

Lemma score_text_decides_parse_fallback_witness :
  parse_llm_response "Score|..| Feedback|good work|" (initial_state ∅)
  = (Returned (5%Q, "Could not parse analysis results"),
     printed (ParseError "could not convert string to float: '..'")
       (initial_state ∅)).
Proof.
  apply (score_text_decides_parse_fallback "Score|..| Feedback|good work|"
           ".." (initial_state ∅) eq_refl).
Defined.

(** ** The feedback pattern on replies off the template *)





(** ** The file loop, entry by entry *)

(** The client changes the state by printing only. *)
Lemma analyze_console_only (generate : string -> exception + string)
    (file_path content requirements : string) (st : state) :
  exists score feedback lines,
    analyze_submission generate file_path content requirements st
    = (Returned (score, feedback),
       mkState (stdout st ++ lines) (report st) (flushed st) (dirs st)
         (total_score st))
    /\ (0 <= score)%Q /\ (score <= 10)%Q.
Proof.
  rewrite analyze_eq.
  destruct (generate (prompt_of file_path content requirements))
    as [e|response].
  - exists 0%Q, "Analysis failed", [ErrorAnalyzing file_path (exc_msg e)].
    repeat split; discriminate.
  - rewrite parse_eq.
    destruct (score_field response) as [w|].
    + destruct (py_float w) as [e|q].
      * exists 5%Q, "Could not parse analysis results",
          [RawResponseHeader file_path; RawResponseBody response;
           RawResponseEnd; ParseError (exc_msg e)].
        split; [|split; discriminate].
        unfold raw_response_printed, printed. simpl.
        now rewrite <- !List.app_assoc.
      * exists (clamp q), (feedback_of response),
          [RawResponseHeader file_path; RawResponseBody response;
           RawResponseEnd].
        split; [|apply clamp_range].
        unfold raw_response_printed, printed. simpl.
        now rewrite <- !List.app_assoc.
    + exists 5%Q, (feedback_of response),
        [RawResponseHeader file_path; RawResponseBody response;
         RawResponseEnd].
      split; [|split; discriminate].
      unfold raw_response_printed, printed. simpl.
      now rewrite <- !List.app_assoc.
Qed.

Lemma process_file_skipped (generate : string -> exception + string)
    (asurite_id extract_dir requirements : string) (file : dir_entry)
    (st : state) :
  e_is_file file && suffix_allowed (PyPath.suffix (e_rel file)) = false ->
  process_file generate asurite_id extract_dir requirements file st
  = (Returned tt, st).
Proof. intros H. unfold process_file. now rewrite H. Qed.

Lemma process_file_unreadable (generate : string -> exception + string)
    (asurite_id extract_dir requirements : string) (file : dir_entry)
    (e : exception) (st : state) :
  e_is_file file && suffix_allowed (PyPath.suffix (e_rel file)) = true ->
  e_read file = inl e ->
  process_file generate asurite_id extract_dir requirements file st
  = (Returned tt,
     printed (ErrorProcessing (extract_dir +:+ "/" +:+ e_rel file) (exc_msg e))
       st).
Proof.
  intros H Hr. unfold process_file. rewrite H, Hr. reflexivity.
Qed.

(** What one entry does to the report and to the flush mark. *)
Lemma process_file_report (generate : string -> exception + string)
    (asurite_id extract_dir requirements : string) (file : dir_entry)
    (st : state) :
  exists st',
    process_file generate asurite_id extract_dir requirements file st
    = (Returned tt, st')
    /\ if gradable file
       then exists score feedback total,
              report st'
              = report st
                ++ [GradeRow asurite_id (e_rel file) score feedback total]
              /\ flushed st' = length (report st')
       else report st' = report st /\ flushed st' = flushed st.
Proof.
  unfold gradable.
  destruct (e_is_file file && suffix_allowed (PyPath.suffix (e_rel file)))
    eqn:E.
  - destruct (e_read file) as [e|content] eqn:Hr.
    + rewrite (process_file_unreadable _ _ _ _ _ e _ E Hr).
      eexists. split; [reflexivity|]. simpl. auto.
    + apply andb_prop in E as [Hf Hs].
      destruct (analyze_console_only generate (e_rel file) content
                  requirements (printed (Analyzing (e_rel file)) st))
        as (score & fb & lines & Ha & _).
      rewrite (process_file_graded _ _ _ _ _ _ _ _ _ _ Hf Hs Hr Ha).
      eexists. split; [reflexivity|]. simpl.
      exists score, fb, (total_score st + score)%Q. auto.
  - rewrite (process_file_skipped _ _ _ _ _ _ E).
    eexists. split; [reflexivity|]. simpl. auto.
Qed.

(** The rows a file loop writes: one per gradable entry, in the order of
    the entries, all under the identifier of the submission; and either
    no row was written or all of the report has been flushed. *)
Lemma process_files_report (generate : string -> exception + string)
    (asurite_id extract_dir requirements : string)
    (entries : list dir_entry) (st : state) :
  exists st' rows,
    for_each entries
      (process_file generate asurite_id extract_dir requirements) st
    = (Returned tt, st')
    /\ report st' = report st ++ rows
    /\ map row_file rows = map e_rel (List.filter gradable entries)
    /\ Forall (fun r => row_id r = asurite_id /\ is_grade_row r = true) rows
    /\ match rows with
       | [] => flushed st' = flushed st
       | _ => flushed st' = length (report st')
       end.
Proof.
  revert st.
  induction entries as [|file entries IH]; intros st.
  - exists st, []. simpl. rewrite app_nil_r. auto.
  - destruct (process_file_report generate asurite_id extract_dir requirements
                file st) as (st1 & H1 & Hfile).
    destruct (IH st1) as (st' & rows & H & Hrep & Hmap & Hall & Hfl).
    cbn [for_each List.filter]. unfold bind. rewrite H1, H.
    destruct (gradable file).
    + destruct Hfile as (score & fb & total & Hr1 & Hf1).
      exists st', (GradeRow asurite_id (e_rel file) score fb total :: rows).
      split; [reflexivity|]. split.
      { rewrite Hrep, Hr1, <- List.app_assoc. reflexivity. }
      split; [simpl; now rewrite Hmap|].
      split; [constructor; [split; reflexivity | exact Hall]|].
      destruct rows as [|r rows'].
      * rewrite Hfl, Hf1, Hrep, app_nil_r. reflexivity.
      * exact Hfl.
    + destruct Hfile as [Hr1 Hf1].
      exists st', rows.
      split; [reflexivity|]. split; [now rewrite Hrep, Hr1|].
      split; [exact Hmap|]. split; [exact Hall|].
      destruct rows; [now rewrite Hfl | exact Hfl].
Qed.

(** X6. For an archive that opens and unpacks, the rows added to the
    report are, in the order of the directory listing, one row for each
    regular file with suffix .py, .yaml or .yml whose text could be
    read, and none for any other entry; every one of them carries the
    identifier of the submission. *)
Theorem rows_are_the_gradable_files
    (generate : string -> exception + string) (requirements : string)
    (a : archive) (entries : list dir_entry) (st : state) :
  a_open a = None ->
  a_extract a = Extracted entries ->
  exists asurite_id st' rows,
    asurite_id_of (a_path a) = Some asurite_id
    /\ process_archive generate requirements a st = (Returned tt, st')
    /\ report st' = report st ++ rows
    /\ map row_file rows = map e_rel (List.filter gradable entries)
    /\ Forall (fun r => row_id r = asurite_id /\ is_grade_row r = true) rows.
Proof.
  intros Ho He.
  destruct (asurite_id_defined (a_path a)) as (asurite_id & Hi).
  destruct (process_files_report generate asurite_id
              (extract_dir_of asurite_id) requirements entries
              (submission_started asurite_id entries st))
    as (st1 & rows & Hl & Hrep & Hmap & Hall & _).
  exists asurite_id, (directory_removed a asurite_id st1), rows.
  split; [exact Hi|].
  split; [exact (process_archive_extracted _ _ _ _ _ _ _ Hi Ho He Hl)|].
  rewrite report_directory_removed. auto.
Qed.

Lemma rows_are_the_gradable_files_witness :
  exists st' rows,
    process_archive reply_refused "req"
      {| a_path := "submissions/abc123-final.zip";
         a_open := None;
         a_extract :=
           Extracted [src_dir; main_py; readme_md; unreadable_py; config_yaml];
         a_rmtree_ok := true |}
      (initial_state ∅) = (Returned tt, st')
    /\ report st' = rows
    /\ map row_file rows = ["main.py"; "config.yaml"].
Proof.
  destruct (rows_are_the_gradable_files reply_refused "req"
              {| a_path := "submissions/abc123-final.zip";
                 a_open := None;
                 a_extract :=
                   Extracted
                     [src_dir; main_py; readme_md; unreadable_py; config_yaml];
                 a_rmtree_ok := true |}
              [src_dir; main_py; readme_md; unreadable_py; config_yaml]
              (initial_state ∅) eq_refl eq_refl)
    as (asurite_id & st' & rows & _ & Hp & Hrep & Hmap & _).
  exists st', rows. split; [exact Hp|]. split; [exact Hrep | exact Hmap].
Defined.

(** ** The archive loop and the report *)

(** Whatever happens to an archive, the report only grows, by graded
    rows. *)
Lemma process_archive_appends (generate : string -> exception + string)
    (requirements : string) (a : archive) (st : state) :
  exists rows,
    report (snd (process_archive generate requirements a st))
    = report st ++ rows
    /\ Forall (fun r => is_grade_row r = true) rows.
Proof.
  destruct (asurite_id_defined (a_path a)) as (asurite_id & Hi).
  destruct (a_open a) as [e|] eqn:Ho.
  - exists []. unfold process_archive, bind. rewrite Hi, Ho. simpl.
    now rewrite app_nil_r.
  - destruct (a_extract a) as [entries|e created] eqn:He.
    + destruct (process_files_report generate asurite_id
                  (extract_dir_of asurite_id) requirements entries
                  (submission_started asurite_id entries st))
        as (st1 & rows & Hl & Hrep & _ & Hall & _).
      exists rows.
      rewrite (process_archive_extracted _ _ _ _ _ _ _ Hi Ho He Hl).
      simpl. rewrite report_directory_removed. split; [exact Hrep|].
      eapply Forall_impl; [exact Hall|]. now intros r [_ H].
    + exists [].
      rewrite (process_archive_extract_failed _ _ _ _ _ _ _ Hi Ho He).
      simpl. now rewrite app_nil_r.
Qed.

Lemma process_archives_append (generate : string -> exception + string)
    (requirements : string) (archives : list archive) (st : state) :
  exists rows,
    report (snd (for_each archives (process_archive generate requirements) st))
    = report st ++ rows
    /\ Forall (fun r => is_grade_row r = true) rows.
Proof.
  revert st.
  induction archives as [|a archives IH]; intros st.
  - exists []. simpl. now rewrite app_nil_r.
  - destruct (process_archive_appends generate requirements a st)
      as (rows1 & H1 & Hall1).
    cbn [for_each]. unfold bind.
    destruct (process_archive generate requirements a st) as [[[]|r] st1].
    + destruct (IH st1) as (rows2 & H2 & Hall2).
      exists (rows1 ++ rows2). simpl in H1.
      rewrite H2, H1, <- List.app_assoc. split; [reflexivity|].
      now apply Forall_app.
    + exists rows1. simpl in *. auto.
Qed.

(** X7. Once the rubric is read, and however the run ends, the report
    is rebuilt from nothing: what it held before is gone, its first row
    is the header, every other row is a graded file, and on the way out
    all of it has been flushed. *)
Theorem report_is_header_then_grades
    (w : world) (pages : list string) (st : state) :
  w_doc w = inr pages ->
  exists rows,
    report (snd (process_submissions w st)) = HeaderRow :: rows
    /\ Forall (fun r => is_grade_row r = true) rows
    /\ flushed (snd (process_submissions w st))
       = length (report (snd (process_submissions w st))).
Proof.
  intros Hd. rewrite (process_submissions_eq w pages st Hd).
  destruct (process_archives_append (w_generate w)
              (extract_requirements_text pages) (w_archives w)
              (header_written st)) as (rows & Hrep & Hall).
  exists rows. simpl. rewrite Hrep. auto.
Qed.

Lemma report_is_header_then_grades_witness :
  exists rows,
    report (snd (process_submissions
                   (world_of [archive_fine; archive_damaged] reply_fine)
                   (mkState [] [HeaderRow; HeaderRow] 0 ∅ 0)))
    = HeaderRow :: rows
    /\ Forall (fun r => is_grade_row r = true) rows.
Proof.
  destruct (report_is_header_then_grades
              (world_of [archive_fine; archive_damaged] reply_fine)
              ["Implement the handler."]
              (mkState [] [HeaderRow; HeaderRow] 0 ∅ 0) eq_refl)
    as (rows & H & Hall & _).
  exists rows. split; [exact H | exact Hall].
Defined.

(** An archive that opens and unpacks is processed to its end. *)
Lemma process_archive_returns (generate : string -> exception + string)
    (requirements : string) (a : archive) (st : state) :
  unpacks a = true ->
  exists st', process_archive generate requirements a st = (Returned tt, st').
Proof.
  unfold unpacks. intros H.
  destruct (a_open a) as [e|] eqn:Ho; [discriminate|].
  destruct (a_extract a) as [entries|e created] eqn:He; [|discriminate].
  destruct (asurite_id_defined (a_path a)) as (asurite_id & Hi).
  destruct (process_files_spec generate asurite_id
              (extract_dir_of asurite_id) requirements entries
              (submission_started asurite_id entries st))
    as (st1 & rows & Hl & _).
  eexists. exact (process_archive_extracted _ _ _ _ _ _ _ Hi Ho He Hl).
Qed.

Lemma process_archives_return (generate : string -> exception + string)
    (requirements : string) (archives : list archive) (st : state) :
  forallb unpacks archives = true ->
  exists st',
    for_each archives (process_archive generate requirements) st
    = (Returned tt, st').
Proof.
  revert st.
  induction archives as [|a archives IH]; intros st H.
  - now exists st.
  - simpl in H. apply andb_prop in H as [Ha Hr].
    destruct (process_archive_returns generate requirements a st Ha)
      as (st1 & H1).
    destruct (IH st1 Hr) as (st' & H').
    exists st'. cbn [for_each]. unfold bind. now rewrite H1.
Qed.

(** ** The program entry *)

(** X8. With the model installed, the rubric readable and every archive
    opening and unpacking, the program runs to its end and prints
    "Grading complete", whatever the model answers and whatever reading
    the files gives: no failure of the inference service or of a file
    read stops it or changes its exit. *)
Theorem run_completes_whatever_the_model_does
    (names : list string) (w : world) (pages : list string)
    (out : list main_line) (st : state) :
  model_installed names = true ->
  w_doc w = inr pages ->
  forallb unpacks (w_archives w) = true ->
  exists st',
    process_submissions w st = (Returned tt, st')
    /\ main (inr names) w out st
       = (Returned tt,
          ((out ++ [CheckingConnection]) ++ [GradingComplete OUTPUT_CSV], st')).
Proof.
  intros Hm Hd Ha.
  destruct (process_archives_return (w_generate w)
              (extract_requirements_text pages) (w_archives w)
              (header_written st) Ha) as (st1 & H1).
  assert (Hp : process_submissions w st = (Returned tt, closed st1)).
  { rewrite (process_submissions_eq w pages st Hd). now rewrite H1. }
  exists (closed st1). split; [exact Hp|].
  unfold main, main_body. rewrite Hm, Hp. reflexivity.
Qed.

Lemma run_completes_whatever_the_model_does_witness :
  exists st',
    main (inr ["llama3:8b"; "codellama:7b"])
      (world_of [archive_fine; archive_undeletable] reply_refused)
      [] (initial_state ∅)
    = (Returned tt,
       ([CheckingConnection; GradingComplete "grades.csv"], st')).
Proof.
  destruct (run_completes_whatever_the_model_does
              ["llama3:8b"; "codellama:7b"]
              (world_of [archive_fine; archive_undeletable] reply_refused)
              ["Implement the handler."] [] (initial_state ∅)
              eq_refl eq_refl eq_refl) as (st' & _ & H).
  exists st'. exact H.
Defined.

